(** * The performance gate of [scripts/ci/check_perf_regressions.py]

    A shallow embedding of the CI script that reads a benchmark report and a
    thresholds file, derives the two P95 figures and decides the exit status.

    The script is a flat sequence of statements; the embedding keeps that
    order and names the statements' variables as the script does.  What
    belongs to the Python runtime and not to the script is represented as
    follows:
    - a value produced by [json.loads] is a [json] tree; an object is an
      association list in the order of its keys, which is the order
      [dict.items()] enumerates;
    - a Python [float] is a binary64 [spec_float]; an [int] is a [Z];
    - the text of a file is represented by what [json.loads] makes of it
      ([content]): either a parse failure or a value;
    - [float(s)] on a string [s] is the runtime's number parser, taken as the
      parameter [float_of_str];
    - a formatted line is the list of its literal and interpolated pieces. *)

From Stdlib Require Import ZArith List String Bool Lia Permutation.
From Stdlib Require Import Floats.SpecFloat.
Import ListNotations.

Set Warnings "-register-all".

Local Open Scope string_scope.
Local Open Scope Z_scope.
Local Open Scope list_scope.

(** ** Python numbers *)

Definition float := spec_float.

(** binary64 *)
Definition prec : Z := 53.
Definition emax : Z := 1024.

(** The numbers the script holds in [frame_p95] and [recompose_p95], and the
    numbers it compares them with. *)
Inductive num : Type :=
| NInt (z : Z)
| NFloat (f : float).

(** The exceptions the statements of the script can raise. *)
Inductive exn : Type :=
| AttributeError
| TypeError
| ValueError
| KeyError
| OverflowError
| FileNotFoundError
| IsADirectoryError
| JSONDecodeError.

(** A computation that returns or raises. *)
Definition result (A : Type) : Type := (exn + A)%type.

Definition ok {A : Type} (a : A) : result A := inr a.
Definition throw {A : Type} (e : exn) : result A := inl e.

Definition rbind {A B : Type} (m : result A) (k : A -> result B) : result B :=
  match m with
  | inl e => inl e
  | inr a => k a
  end.

Declare Scope result_scope.
Delimit Scope result_scope with result.
Notation "x <- m ;; k" := (rbind m (fun x => k))
  (at level 61, m at next level, right associativity) : result_scope.
Notation "' pat <- m ;; k" := (rbind m (fun x => match x with pat => k end))
  (at level 61, pat pattern, m at next level, right associativity) : result_scope.

(** [float(n)] for an [int]: the nearest binary64, ties to even;
    [OverflowError] when that is beyond the largest finite one. *)
Definition float_of_int (z : Z) : result float :=
  match binary_normalize prec emax z 0 false with
  | S754_infinity _ => throw OverflowError
  | f => ok f
  end.

(** The integer a non-zero finite float's sign and mantissa stand for. *)
Definition signed (s : bool) (m : positive) : Z :=
  if s then Z.neg m else Z.pos m.

(** Comparison of a float with an int is exact in Python: no conversion of
    the int. *)
Definition SFcompare_int (f : float) (z : Z) : option comparison :=
  match f with
  | S754_nan => None
  | S754_infinity s => Some (if s then Lt else Gt)
  | S754_zero _ => Some (0 ?= z)
  | S754_finite s m e =>
      Some (if 0 <=? e
            then (signed s m * 2 ^ e ?= z)
            else (signed s m ?= z * 2 ^ (- e)))
  end.

Definition num_compare (a b : num) : option comparison :=
  match a, b with
  | NInt x, NInt y => Some (x ?= y)
  | NFloat f, NFloat g => SFcompare f g
  | NFloat f, NInt y => SFcompare_int f y
  | NInt x, NFloat g => option_map CompOpp (SFcompare_int g x)
  end.

(** [a > b] *)
Definition num_gt (a b : num) : bool :=
  match num_compare a b with
  | Some Gt => true
  | _ => false
  end.

(** [a == b] *)
Definition num_eq (a b : num) : bool :=
  match num_compare a b with
  | Some Eq => true
  | _ => false
  end.

(** Truth value of a number: zero is false, everything else (NaN too) true. *)
Definition num_truthy (n : num) : bool :=
  match n with
  | NInt z => negb (z =? 0)
  | NFloat (S754_zero _) => false
  | NFloat _ => true
  end.

(** The builtin [max(a, b)]: the first argument unless the second is
    greater. *)
Definition py_max (a b : num) : num :=
  if num_gt b a then b else a.

(** [x or 0] for a variable that holds [None] or a number. *)
Definition or_zero (x : option num) : num :=
  match x with
  | None => NInt 0
  | Some n => if num_truthy n then n else NInt 0
  end.

(** ** JSON values *)

Inductive json : Type :=
| JNull
| JBool (b : bool)
| JInt (z : Z)
| JFloat (f : float)
| JStr (s : string)
| JList (l : list json)
| JDict (d : list (string * json)).

(** The bindings of an object, in the order of its keys; [json.loads] keeps
    one binding for each key. *)
Definition dict : Type := list (string * json).

Fixpoint dict_get (k : string) (d : dict) : option json :=
  match d with
  | [] => None
  | (k', v) :: d' => if String.eqb k k' then Some v else dict_get k d'
  end.

(** [obj.get(key, default)]: only a dict has the method. *)
Definition py_get (obj : json) (key : string) (default : json) : result json :=
  match obj with
  | JDict d =>
      ok (match dict_get key d with
          | Some v => v
          | None => default
          end)
  | _ => throw AttributeError
  end.

(** [obj[key]] for a string key. *)
Definition py_getitem (obj : json) (key : string) : result json :=
  match obj with
  | JDict d =>
      match dict_get key d with
      | Some v => ok v
      | None => throw KeyError
      end
  | _ => throw TypeError
  end.

(** [obj.items()] *)
Definition py_items (obj : json) : result (list (string * json)) :=
  match obj with
  | JDict d => ok d
  | _ => throw AttributeError
  end.

(** [isinstance(v, dict)] *)
Definition is_dict (v : json) : bool :=
  match v with
  | JDict _ => true
  | _ => false
  end.

(** Truth value, as [not v] tests it. *)
Definition truthy (v : json) : bool :=
  match v with
  | JNull => false
  | JBool b => b
  | JInt z => num_truthy (NInt z)
  | JFloat f => num_truthy (NFloat f)
  | JStr s => negb (String.eqb s "")
  | JList l => negb (Nat.eqb (List.length l) 0)
  | JDict d => negb (Nat.eqb (List.length d) 0)
  end.

Fixpoint chars (s : string) : list json :=
  match s with
  | EmptyString => []
  | String c s' => JStr (String c EmptyString) :: chars s'
  end.

(** What [for x in v] enumerates. *)
Definition py_iter (v : json) : result (list json) :=
  match v with
  | JList l => ok l
  | JDict d => ok (map (fun kv => JStr (fst kv)) d)
  | JStr s => ok (chars s)
  | _ => throw TypeError
  end.

(** [sub in s] *)
Definition contains (sub s : string) : bool :=
  match String.index 0 sub s with
  | Some _ => true
  | None => false
  end.

(** The operand of a comparison seen as a number; [bool] is a subtype of
    [int]. *)
Definition as_num (v : json) : result num :=
  match v with
  | JBool b => ok (NInt (if b then 1 else 0))
  | JInt z => ok (NInt z)
  | JFloat f => ok (NFloat f)
  | _ => throw TypeError
  end.

(** [n > v] *)
Definition py_gt (n : num) (v : json) : result bool :=
  (t <- as_num v ;; ok (num_gt n t))%result.

(** ** The metrics the two derived values are taken over

    Written after the data model: the [frameDurationCpuMs] mapping of each
    entry that has one, and the mappings under every metric name that
    contains [compose:recompose], in the order of the entries. *)

Definition metrics_of (entry : json) : dict :=
  match py_get entry "metrics" (JDict []) with
  | inr (JDict d) => d
  | _ => []
  end.

Definition frame_metric_of (entry : json) : list json :=
  match dict_get "frameDurationCpuMs" (metrics_of entry) with
  | Some (JDict m) => [JDict m]
  | _ => []
  end.

Definition frame_metrics (entries : list json) : list json :=
  flat_map frame_metric_of entries.

Definition is_recompose (kv : string * json) : bool :=
  contains "compose:recompose" (fst kv) && is_dict (snd kv).

Definition recompose_metrics_of (entry : json) : list json :=
  map snd (filter is_recompose (metrics_of entry)).

Definition recompose_metrics (entries : list json) : list json :=
  flat_map recompose_metrics_of entries.

(** The entry is a mapping whose [metrics], if any, is a mapping: lines 29
    and 30 do not raise on it. *)
Definition has_metrics (entry : json) : Prop :=
  exists d, py_get entry "metrics" (JDict []) = ok (JDict d).

(** [n] is the maximum of [l]: a member that no member exceeds. *)
Definition maximum_of (n : num) (l : list num) : Prop :=
  In n l /\ forall y, In y l -> num_gt y n = false.

(** The value of an accumulator after the samples [xs]: undefined when
    there was none, otherwise the maximum of 0 and the samples. *)
Definition max_with_zero (acc : option num) (xs : list float) : Prop :=
  match acc with
  | None => xs = []
  | Some n => xs <> [] /\ maximum_of n (NInt 0 :: map NFloat xs)
  end.

(** Floats above zero. *)
Definition positive_float (f : float) : bool :=
  match f with
  | S754_infinity false | S754_finite false _ _ => true
  | _ => false
  end.

(** [x >= 0] for a float. *)
Definition at_least_zero (x : float) : bool :=
  match SFcompare_int x 0 with
  | Some Gt | Some Eq => true
  | _ => false
  end.

(** The values an accumulator takes: the int 0 or a float above zero. *)
Definition floor_or_positive (n : num) : Prop :=
  n = NInt 0 \/ exists f, n = NFloat f /\ positive_float f = true.

(** What the loop keeps true of an accumulator after the samples [xs]. *)
Definition settled (acc : option num) (xs : list float) : Prop :=
  max_with_zero acc xs /\
  match acc with
  | None => True
  | Some n => floor_or_positive n
  end.

(** ** Files

    A path names nothing, a directory, or a regular file; the text of a
    regular file either fails to parse or parses to a value. *)

Inductive content : Type :=
| Malformed
| Wellformed (v : json).

Inductive node : Type :=
| Absent
| Directory
| Regular (c : content).

Definition filesystem : Type := string -> node.

(** ** Sample inputs *)

(** A parser for [float] on strings that accepts nothing; the sample inputs
    below hold no string where a number is expected. *)
Definition rejects_strings : string -> option float := fun _ => None.

(** The binary64 values of a few small integers. *)
Definition f_zero : float := S754_zero false.
Definition f_minus_one : float := S754_finite true 4503599627370496 (-52).
Definition f_three : float := S754_finite false 6755399441055744 (-51).
Definition f_five : float := S754_finite false 5629499534213120 (-50).
Definition f_seven : float := S754_finite false 7881299347898368 (-50).
Definition f_ten : float := S754_finite false 5629499534213120 (-49).

(** [{"metrics": {name: {"P95": p95}}}] *)
Definition entry_with (name : string) (p95 : json) : json :=
  JDict [("metrics", JDict [(name, JDict [("P95", p95)])])].

(** [{"metrics": {"frameDurationCpuMs": {"P95": frame}, name: {"P95": recompose}}}] *)
Definition entry_of (frame : json) (name : string) (recompose : json) : json :=
  JDict [("metrics", JDict [("frameDurationCpuMs", JDict [("P95", frame)]);
                            (name, JDict [("P95", recompose)])])].

Definition report_of (entries : list json) : json :=
  JDict [("benchmarks", JList entries)].

Definition thresholds_of (frame recompose : json) : json :=
  JDict [("frameDurationCpuMsP95", frame); ("recompositionCountP95", recompose)].

(** The entries of the first testable property: frame 10, recomposition 5. *)
Definition sample_entries : list json :=
  [entry_of (JInt 10) "compose:recompose:Home" (JInt 5)].

Definition sample_report : json := report_of sample_entries.

(** One entry whose frame metric has a negative P95, one whose
    recomposition metric has, and one whose frame metric has no P95. *)
Definition negative_frame_entries : list json :=
  [entry_with "frameDurationCpuMs" (JInt (-1))].

Definition negative_recompose_entries : list json :=
  [entry_with "compose:recompose:Home" (JInt (-1))].

Definition bare_frame_entries : list json :=
  [JDict [("metrics", JDict [("frameDurationCpuMs", JDict [])])]].

Definition prog : string := "check_perf_regressions.py".
Definition report_json : string := "report.json".
Definition thresholds_json : string := "thresholds.json".

(** A directory holding the two files with the given contents and nothing
    else. *)
Definition disk (report thresholds : node) : filesystem :=
  fun p =>
    if String.eqb p report_json then report
    else if String.eqb p thresholds_json then thresholds
    else Absent.

Definition sample_argv : list string := [prog; report_json; thresholds_json].

(** Further sample inputs: thresholds the sample report passes and fails,
    and entries to put after the sample ones. *)
Definition pass_disk : filesystem :=
  disk (Regular (Wellformed sample_report))
       (Regular (Wellformed (thresholds_of (JInt 20) (JInt 20)))).

Definition regression_disk : filesystem :=
  disk (Regular (Wellformed sample_report))
       (Regular (Wellformed (thresholds_of (JInt 5) (JInt 1)))).

Definition later_entries : list json :=
  [entry_of (JInt 3) "compose:recompose:Detail" (JInt 7)].

(** The sample entry with a metric and a field the script does not look
    at. *)
Definition padded_entries : list json :=
  [JDict [("name", JStr "startup");
          ("metrics",
           JDict [("frameDurationCpuMs", JDict [("P95", JInt 10)]);
                  ("memoryKb", JDict [("P95", JInt 4096)]);
                  ("compose:recompose:Home", JDict [("P95", JInt 5)])])]].

Section Script.

(** [float(s)] for a string: [None] stands for [ValueError]. *)
Variable float_of_str : string -> option float.

(** [float(v)] *)
Definition py_float (v : json) : result float :=
  match v with
  | JFloat f => ok f
  | JInt z => float_of_int z
  | JBool b => float_of_int (if b then 1 else 0)
  | JStr s =>
      match float_of_str s with
      | Some f => ok f
      | None => throw ValueError
      end
  | JNull | JList _ | JDict _ => throw TypeError
  end.

(** [float(metric.get("P95", 0))] *)
Definition p95_of (metric : json) : result float :=
  (p95 <- py_get metric "P95" (JInt 0) ;; py_float p95)%result.

(** Line 32 and line 36: [max(acc or 0, float(metric.get("P95", 0)))]. *)
Definition bump (acc : option num) (metric : json) : result (option num) :=
  (x <- p95_of metric ;; ok (Some (py_max (or_zero acc) (NFloat x))))%result.

(** Lines 34-36: the loop over [metrics.items()]. *)
Fixpoint scan_items (items : list (string * json)) (recompose_p95 : option num)
  : result (option num) :=
  match items with
  | [] => ok recompose_p95
  | (key, value) :: rest =>
      (recompose_p95 <-
         (if contains "compose:recompose" key && is_dict value
          then bump recompose_p95 value
          else ok recompose_p95) ;;
       scan_items rest recompose_p95)%result
  end.

(** Lines 29-36: the body of the loop over the entries. *)
Definition scan_entry (st : option num * option num) (benchmark : json)
  : result (option num * option num) :=
  let '(frame_p95, recompose_p95) := st in
  (metrics <- py_get benchmark "metrics" (JDict []) ;;
   frame_metric <- py_get metrics "frameDurationCpuMs" JNull ;;
   frame_p95 <-
     (if is_dict frame_metric
      then bump frame_p95 frame_metric
      else ok frame_p95) ;;
   items <- py_items metrics ;;
   recompose_p95 <- scan_items items recompose_p95 ;;
   ok (frame_p95, recompose_p95))%result.

(** Lines 28-36 from a given state of the two variables. *)
Fixpoint scan_from (st : option num * option num) (benchmarks : list json)
  : result (option num * option num) :=
  match benchmarks with
  | [] => ok st
  | benchmark :: rest =>
      (st <- scan_entry st benchmark ;; scan_from st rest)%result
  end.

(** Lines 25-36. *)
Definition scan (benchmarks : list json) : result (option num * option num) :=
  scan_from (None, None) benchmarks.

(** The accumulation both variables go through, over a list of metric
    mappings. *)
Fixpoint accumulate (acc : option num) (metrics : list json) : result (option num) :=
  match metrics with
  | [] => ok acc
  | metric :: rest => (acc <- bump acc metric ;; accumulate acc rest)%result
  end.

(** The samples of a list of metric mappings: [xs] holds [float(m.get("P95", 0))]
    for each [m], in order. *)
Definition samples (metrics : list json) (xs : list float) : Prop :=
  Forall2 (fun m x => p95_of m = ok x) metrics xs.

(** An entry the loop body goes through without raising: its metrics are a
    mapping, and the metric mappings the body looks at have a P95 that
    [float] accepts. *)
Definition well_shaped (entry : json) : Prop :=
  (exists d, py_get entry "metrics" (JDict []) = ok (JDict d)) /\
  Forall (fun m => exists x, p95_of m = ok x)
         (frame_metric_of entry ++ recompose_metrics_of entry).

(** ** The process: what it does to the outside and how it ends *)

Inductive piece : Type :=
| Text (s : string)
| OfPath (p : string)
| OfNum (n : num).

Definition line : Type := list piece.

(** What the script does that the outside can see, in order: a line on
    standard output, [exists()] on a path, [read_text()] on a path. *)
Inductive event : Type :=
| Print (l : line)
| Probe (p : string)
| Read (p : string).

Fixpoint stdout (trace : list event) : list line :=
  match trace with
  | [] => []
  | Print l :: rest => l :: stdout rest
  | _ :: rest => stdout rest
  end.

(** What unwinds the script: [sys.exit(code)] or an exception nobody
    catches. *)
Inductive signal : Type :=
| SystemExit (code : Z)
| Uncaught (e : exn).

(** A statement: it adds to the trace, and then continues or unwinds. *)
Definition script (A : Type) : Type := list event -> list event * (signal + A).

Definition sret {A : Type} (a : A) : script A :=
  fun tr => (tr, inr a).

Definition sbind {A B : Type} (m : script A) (k : A -> script B) : script B :=
  fun tr =>
    match m tr with
    | (tr', inl s) => (tr', inl s)
    | (tr', inr a) => k a tr'
    end.

Definition emit (e : event) : script unit :=
  fun tr => (tr ++ [e], inr tt).

Definition print (l : line) : script unit := emit (Print l).

Definition sys_exit {A : Type} (code : Z) : script A :=
  fun tr => (tr, inl (SystemExit code)).

Definition eval {A : Type} (r : result A) : script A :=
  fun tr =>
    match r with
    | inl e => (tr, inl (Uncaught e))
    | inr a => (tr, inr a)
    end.

Declare Scope script_scope.
Delimit Scope script_scope with script.
Notation "x <- m ;; k" := (sbind m (fun x => k))
  (at level 61, m at next level, right associativity) : script_scope.
Notation "' pat <- m ;; k" := (sbind m (fun x => match x with pat => k end))
  (at level 61, pat pattern, m at next level, right associativity) : script_scope.
Notation "m ;;; k" := (sbind m (fun _ => k))
  (at level 62, right associativity) : script_scope.

(** ** File operations *)

(** [Path(p).exists()] *)
Definition path_exists (fs : filesystem) (p : string) : script bool :=
  (emit (Probe p) ;;;
   sret (match fs p with
         | Absent => false
         | _ => true
         end))%script.

(** [Path(p).read_text()] *)
Definition read_text (fs : filesystem) (p : string) : script content :=
  (emit (Read p) ;;;
   eval (match fs p with
         | Absent => throw FileNotFoundError
         | Directory => throw IsADirectoryError
         | Regular c => ok c
         end))%script.

(** [json.loads(text)] *)
Definition json_loads (c : content) : script json :=
  eval (match c with
        | Malformed => throw JSONDecodeError
        | Wellformed v => ok v
        end).

(** ** The script *)

Definition usage : line :=
  [Text "Usage: check_perf_regressions.py <benchmark_json> <thresholds_json>"].

(** [value > thresholds[key]] *)
Definition exceeds (value : num) (thresholds : json) (key : string) : result bool :=
  (limit <- py_getitem thresholds key ;; py_gt value limit)%result.

(** Lines 42-53. *)
Definition compare_thresholds (frame_p95 recompose_p95 : num) (thresholds : json)
  : script unit :=
  (print [Text "frameDurationCpuMs P95 = "; OfNum frame_p95] ;;;
   print [Text "recomposition P95 = "; OfNum recompose_p95] ;;;
   over <- eval (exceeds frame_p95 thresholds "frameDurationCpuMsP95") ;;
   if over : bool
   then print [Text "Frame-time regression detected"] ;;; sys_exit 1
   else
     over <- eval (exceeds recompose_p95 thresholds "recompositionCountP95") ;;
     if over : bool
     then print [Text "Recomposition-count regression detected"] ;;; sys_exit 1
     else print [Text "Performance gate passed"])%script.

(** Lines 20-53. *)
Definition check (report thresholds : json) : script unit :=
  (benchmarks <- eval (py_get report "benchmarks" (JList [])) ;;
   if negb (truthy benchmarks)
   then print [Text "No benchmark entries found"] ;;; sys_exit 2
   else
     '(frame_p95, recompose_p95) <-
        eval (entries <- py_iter benchmarks ;; scan entries)%result ;;
     match frame_p95, recompose_p95 with
     | Some frame_p95, Some recompose_p95 =>
         compare_thresholds frame_p95 recompose_p95 thresholds
     | _, _ =>
         print [Text "Missing required metrics (frameDurationCpuMs or compose:recompose)"] ;;;
         sys_exit 2
     end)%script.

(** The whole script; [argv] is [sys.argv], the script's own name first. *)
Definition main (fs : filesystem) (argv : list string) : script unit :=
  if negb (Nat.eqb (List.length argv) 3)
  then (print usage ;;; sys_exit 2)%script
  else
    let benchmark_path := nth 1 argv "" in
    let thresholds_path := nth 2 argv "" in
    (found <- path_exists fs benchmark_path ;;
     if negb found
     then print [Text "Benchmark report not found: "; OfPath benchmark_path] ;;;
          sys_exit 2
     else
       report <- (text <- read_text fs benchmark_path ;; json_loads text) ;;
       thresholds <- (text <- read_text fs thresholds_path ;; json_loads text) ;;
       check report thresholds)%script.

(** How the process ends: with an exit status the script chose (0 at the
    end of the script), or with the traceback of an uncaught exception. *)
Inductive outcome : Type :=
| Exit (code : Z)
| Traceback (e : exn).

Definition finish (r : list event * (signal + unit)) : list event * outcome :=
  match r with
  | (tr, inr tt) => (tr, Exit 0)
  | (tr, inl (SystemExit code)) => (tr, Exit code)
  | (tr, inl (Uncaught e)) => (tr, Traceback e)
  end.

(** Running the script: the trace it leaves and how it ends.  Reaching the
    end of the script is exit status 0. *)
Definition run (fs : filesystem) (argv : list string) : list event * outcome :=
  finish (main fs argv []).

(** ** Vocabulary of the statements *)

(** What the run printed and how it ended. *)
Definition printed (fs : filesystem) (argv : list string) : list line :=
  stdout (fst (run fs argv)).

Definition ended (fs : filesystem) (argv : list string) : outcome :=
  snd (run fs argv).

(** The script is invoked with two paths, and both files parse: to
    [report] and to [thresholds]. *)
Definition given (fs : filesystem) (argv : list string) (report thresholds : json)
  : Prop :=
  exists name benchmark_path thresholds_path,
    argv = [name; benchmark_path; thresholds_path] /\
    fs benchmark_path = Regular (Wellformed report) /\
    fs thresholds_path = Regular (Wellformed thresholds).

(** The report has entries, the loop over them completes, and leaves the
    two variables at [frame_p95] and [recompose_p95]. *)
Definition measures (report : json) (frame_p95 recompose_p95 : option num) : Prop :=
  exists benchmarks entries,
    py_get report "benchmarks" (JList []) = ok benchmarks /\
    truthy benchmarks = true /\
    py_iter benchmarks = ok entries /\
    scan entries = ok (frame_p95, recompose_p95).

(** [value == thresholds[key]] holds. *)
Definition equals (value : num) (thresholds : json) (key : string) : Prop :=
  exists limit t,
    py_getitem thresholds key = ok limit /\
    as_num limit = ok t /\
    num_eq value t = true.

(** The derived value as the data model words it: undefined without
    samples, otherwise equal to the maximum of the samples. *)
Definition true_maximum (acc : option num) (xs : list float) : Prop :=
  match acc with
  | None => xs = []
  | Some n => exists y, maximum_of y (map NFloat xs) /\ num_eq n y = true
  end.

Definition values_lines (frame_p95 recompose_p95 : num) : list line :=
  [[Text "frameDurationCpuMs P95 = "; OfNum frame_p95];
   [Text "recomposition P95 = "; OfNum recompose_p95]].

(** The other lines the script prints. *)
Definition not_found (benchmark_path : string) : line :=
  [Text "Benchmark report not found: "; OfPath benchmark_path].

Definition no_entries : line := [Text "No benchmark entries found"].

Definition missing_metrics : line :=
  [Text "Missing required metrics (frameDurationCpuMs or compose:recompose)"].

(** * Properties *)

(** ** Order of the numbers *)

Lemma signed_sign (s : bool) (m : positive) :
  if s then signed s m < 0 else 0 < signed s m.
Proof. destruct s; [apply Pos2Z.neg_is_neg | apply Pos2Z.is_pos]. Qed.

Lemma SFcompare_int_zero_gt (f : float) :
  SFcompare_int f 0 = Some Gt <-> positive_float f = true.
Proof.
  destruct f as [s | s | | s m e]; cbn [SFcompare_int positive_float].
  - split; discriminate.
  - destruct s; split; congruence.
  - split; discriminate.
  - pose proof (signed_sign s m) as Hs.
    generalize dependent (signed s m). intros z Hs.
    rewrite Z.mul_0_l.
    assert (0 <= e -> 0 < 2 ^ e) as Hp by (intros; apply Z.pow_pos_nonneg; lia).
    generalize dependent (2 ^ e). intros p Hp.
    destruct (Z.leb_spec 0 e) as [He | He].
    + specialize (Hp He).
      destruct s; split; try reflexivity; try discriminate.
      * intros Hc. assert ((z * p ?= 0) = Gt) as Hc' by congruence.
        apply Z.compare_gt_iff in Hc'. nia.
      * intros _. f_equal. apply Z.compare_gt_iff. nia.
    + destruct s; split; try reflexivity; try discriminate.
      * intros Hc. assert ((z ?= 0) = Gt) as Hc' by congruence.
        apply Z.compare_gt_iff in Hc'. lia.
      * intros _. f_equal. apply Z.compare_gt_iff. lia.
Qed.

Ltac split_compare :=
  repeat match goal with
    | |- context [Z.compare ?x ?y] => destruct (Z.compare_spec x y)
    | |- context [Pos.compare_cont Eq ?x ?y] =>
        change (Pos.compare_cont Eq x y) with (Pos.compare x y);
        destruct (Pos.compare_spec x y)
    end.

Ltac order_cases :=
  cbn [SFcompare CompOpp]; split_compare; subst; cbn [CompOpp];
  intros; try congruence; try (exfalso; lia).

(** A float that exceeds [a] exceeds whatever does not exceed [a]. *)
Lemma SFcompare_gt_above (a b c : float) :
  SFcompare b a = Some Gt ->
  SFcompare c a <> Some Gt ->
  SFcompare c b <> Some Gt.
Proof.
  destruct a as [sa | sa | | sa ma ea];
    destruct b as [sb | sb | | sb mb eb];
    destruct c as [sc | sc | | sc mc ec];
    try destruct sa; try destruct sb; try destruct sc;
    order_cases.
Qed.

Lemma SFcompare_gt_irrefl (f : float) : SFcompare f f <> Some Gt.
Proof.
  destruct f as [s | s | | s m e]; try destruct s; order_cases.
Qed.

Lemma SFcompare_gt_positive (a b : float) :
  positive_float a = true -> SFcompare b a = Some Gt -> positive_float b = true.
Proof.
  destruct a as [sa | sa | | sa ma ea];
    destruct b as [sb | sb | | sb mb eb];
    try destruct sa; try destruct sb; cbn [positive_float];
    order_cases.
Qed.

Lemma SFcompare_positive_above (b c : float) :
  positive_float b = true -> positive_float c = false -> SFcompare c b <> Some Gt.
Proof.
  destruct b as [sb | sb | | sb mb eb];
    destruct c as [sc | sc | | sc mc ec];
    try destruct sb; try destruct sc; cbn [positive_float];
    order_cases.
Qed.

Lemma num_gt_irrefl (n : num) : num_gt n n = false.
Proof.
  destruct n as [z | f]; unfold num_gt; cbn [num_compare].
  - now rewrite Z.compare_refl.
  - pose proof (SFcompare_gt_irrefl f) as H.
    destruct (SFcompare f f) as [[ | | ] | ]; congruence.
Qed.

Lemma num_gt_float_zero (f : float) :
  num_gt (NFloat f) (NInt 0) = positive_float f.
Proof.
  unfold num_gt; cbn [num_compare].
  pose proof (SFcompare_int_zero_gt f) as H.
  destruct (positive_float f).
  - now rewrite (proj2 H eq_refl).
  - destruct (SFcompare_int f 0) as [[ | | ] | ]; try reflexivity.
    now apply proj1 in H; specialize (H eq_refl).
Qed.

Lemma num_gt_zero_positive (f : float) :
  positive_float f = true -> num_gt (NInt 0) (NFloat f) = false.
Proof.
  intros Hf. unfold num_gt; cbn [num_compare].
  now rewrite (proj2 (SFcompare_int_zero_gt f) Hf).
Qed.

Lemma num_gt_floats (f g : float) :
  num_gt (NFloat f) (NFloat g) = true <-> SFcompare f g = Some Gt.
Proof.
  unfold num_gt; cbn [num_compare].
  destruct (SFcompare f g) as [[ | | ] | ]; split; congruence.
Qed.

Lemma or_zero_settled (n : num) :
  floor_or_positive n -> or_zero (Some n) = n.
Proof.
  intros [-> | [f [-> Hf]]]; [reflexivity|].
  destruct f as [s | s | | s m e]; try destruct s; try discriminate; reflexivity.
Qed.

Lemma floor_or_positive_above_zero (n : num) :
  floor_or_positive n -> num_gt (NInt 0) n = false.
Proof.
  intros [-> | [f [-> Hf]]]; [reflexivity | now apply num_gt_zero_positive].
Qed.

(** What exceeds an accumulator is a float above zero. *)
Lemma exceeds_floor_positive (a : num) (x : float) :
  floor_or_positive a -> num_gt (NFloat x) a = true -> positive_float x = true.
Proof.
  intros [-> | [f [-> Hf]]] Hgt.
  - now rewrite num_gt_float_zero in Hgt.
  - apply num_gt_floats in Hgt. eapply SFcompare_gt_positive; eauto.
Qed.

(** ... and exceeds the int 0 and every float the accumulator was not
    exceeded by. *)
Lemma num_gt_above (a y : num) (x : float) :
  floor_or_positive a ->
  num_gt (NFloat x) a = true ->
  (y = NInt 0 \/ exists c, y = NFloat c) ->
  num_gt y a = false ->
  num_gt y (NFloat x) = false.
Proof.
  intros Ha Hgt Hy Hya.
  pose proof (exceeds_floor_positive _ _ Ha Hgt) as Hx.
  destruct Hy as [-> | [c ->]]; [now apply num_gt_zero_positive|].
  destruct (num_gt (NFloat c) (NFloat x)) eqn:Hcx; [|reflexivity].
  apply num_gt_floats in Hcx. exfalso.
  destruct Ha as [-> | [f [-> Hf]]].
  - rewrite num_gt_float_zero in Hya.
    now apply (SFcompare_positive_above _ _ Hx Hya).
  - apply num_gt_floats in Hgt.
    apply (SFcompare_gt_above f x c Hgt); [|exact Hcx].
    intros Hcf. apply num_gt_floats in Hcf. congruence.
Qed.

(** ** The accumulation *)

Lemma settled_start : settled None [].
Proof. now split. Qed.

(** One round of [max(acc or 0, x)] keeps the accumulator settled. *)
Lemma settled_step (acc : option num) (xs : list float) (x : float) :
  settled acc xs ->
  settled (Some (py_max (or_zero acc) (NFloat x))) (xs ++ [x]).
Proof.
  intros [Hmax Hacc].
  assert (floor_or_positive (or_zero acc) /\
          maximum_of (or_zero acc) (NInt 0 :: map NFloat xs)) as [Ha [Hin Hub]].
  { destruct acc as [n | ].
    - rewrite (or_zero_settled n Hacc). destruct Hmax as [_ Hmax]. now split.
    - cbn in Hmax. subst xs. split; [now left|].
      split; [now left|]. intros y [<- | []]. reflexivity. }
  assert (forall y, In y (NInt 0 :: map NFloat xs) ->
                    y = NInt 0 \/ exists c, y = NFloat c) as Hshape.
  { intros y [<- | Hy]; [now left|]. right.
    apply in_map_iff in Hy. destruct Hy as [c [<- _]]. now exists c. }
  unfold py_max. destruct (num_gt (NFloat x) (or_zero acc)) eqn:Hgt.
  - split; [split; [|split]|].
    + now destruct xs.
    + right. rewrite map_app. apply in_or_app. right. now left.
    + intros y [<- | Hy].
      * apply num_gt_zero_positive. now apply (exceeds_floor_positive _ _ Ha Hgt).
      * rewrite map_app in Hy. apply in_app_or in Hy.
        destruct Hy as [Hy | [<- | []]]; [|apply num_gt_irrefl].
        apply (num_gt_above (or_zero acc)); auto.
        -- apply Hshape. now right.
        -- apply Hub. now right.
    + right. exists x. split; [reflexivity|].
      now apply (exceeds_floor_positive _ _ Ha Hgt).
  - split; [split; [|split]|]; [now destruct xs | | | exact Ha].
    + destruct Hin as [Hin | Hin]; [now left|].
      right. rewrite map_app. apply in_or_app. now left.
    + intros y [<- | Hy]; [apply Hub; now left|].
      rewrite map_app in Hy. apply in_app_or in Hy.
      destruct Hy as [Hy | [<- | []]]; [|exact Hgt].
      apply Hub. now right.
Qed.

Lemma accumulate_app (l1 l2 : list json) (acc : option num) :
  accumulate acc (l1 ++ l2) =
  (acc' <- accumulate acc l1 ;; accumulate acc' l2)%result.
Proof.
  revert acc. induction l1 as [ | m l1 IH]; intros acc; [reflexivity|].
  cbn [accumulate app]. destruct (bump acc m) as [e | acc']; [reflexivity|].
  cbn [rbind]. apply IH.
Qed.

(** A completed accumulation took a sample from every mapping and ends at
    the maximum of 0 and the samples. *)
Lemma accumulate_settled (metrics : list json) :
  forall (acc acc' : option num) (seen : list float),
    settled acc seen ->
    accumulate acc metrics = ok acc' ->
    exists xs, samples metrics xs /\ settled acc' (seen ++ xs).
Proof.
  induction metrics as [ | m rest IH]; intros acc acc' seen Hacc Hrun.
  - injection Hrun as <-. exists []. split; [constructor|].
    now rewrite app_nil_r.
  - cbn [accumulate] in Hrun. unfold bump in Hrun at 1.
    destruct (p95_of m) as [e | x] eqn:Hx; [discriminate|].
    cbn [rbind ok] in Hrun.
    destruct (IH _ _ (seen ++ [x]) (settled_step acc seen x Hacc) Hrun)
      as [xs [Hxs Hend]].
    exists (x :: xs). split; [now constructor|].
    now rewrite <- app_assoc in Hend.
Qed.

(** ** The loop over the entries, as two accumulations *)

Lemma scan_items_accumulate (items : list (string * json)) (acc : option num) :
  scan_items items acc = accumulate acc (map snd (filter is_recompose items)).
Proof.
  revert acc. induction items as [ | [key value] rest IH]; intros acc; [reflexivity|].
  cbn [scan_items filter]. unfold is_recompose at 1. cbn [fst snd].
  destruct (contains "compose:recompose" key && is_dict value).
  - cbn [map accumulate snd]. destruct (bump acc value); [reflexivity|].
    cbn [rbind]. apply IH.
  - cbn [rbind ok]. apply IH.
Qed.

Lemma scan_entry_accumulate (entry : json) (frame recompose frame' recompose' : option num) :
  scan_entry (frame, recompose) entry = ok (frame', recompose') ->
  accumulate frame (frame_metric_of entry) = ok frame' /\
  accumulate recompose (recompose_metrics_of entry) = ok recompose'.
Proof.
  unfold scan_entry, frame_metric_of, recompose_metrics_of, metrics_of.
  destruct (py_get entry "metrics" (JDict [])) as [e | metrics]; [discriminate|].
  cbn [rbind].
  destruct metrics as [ | b | z | f | s | l | d]; try discriminate.
  cbn [py_get rbind ok py_items].
  destruct (dict_get "frameDurationCpuMs" d) as [frame_metric | ].
  - destruct frame_metric as [ | b | z | f | s | l | m]; cbn [is_dict accumulate rbind ok].
    7: { destruct (bump frame (JDict m)) as [e | a]; [discriminate|].
         cbn [rbind]. rewrite scan_items_accumulate.
         destruct (accumulate recompose _) as [e | a']; [discriminate|].
         cbn [rbind ok]. intros [= <- <-]. now split. }
    all: rewrite scan_items_accumulate;
      destruct (accumulate recompose _) as [e | a']; [discriminate|];
      cbn [rbind ok]; intros [= <- <-]; now split.
  - cbn [is_dict accumulate rbind ok]. rewrite scan_items_accumulate.
    destruct (accumulate recompose _) as [e | a']; [discriminate|].
    cbn [rbind ok]. intros [= <- <-]. now split.
Qed.

Lemma scan_from_accumulate (entries : list json) :
  forall frame recompose frame' recompose',
    scan_from (frame, recompose) entries = ok (frame', recompose') ->
    accumulate frame (frame_metrics entries) = ok frame' /\
    accumulate recompose (recompose_metrics entries) = ok recompose'.
Proof.
  induction entries as [ | entry rest IH]; intros frame recompose frame' recompose' Hrun.
  - injection Hrun as <- <-. now split.
  - cbn [scan_from] in Hrun.
    destruct (scan_entry (frame, recompose) entry) as [e | [f1 r1]] eqn:Hentry;
      [discriminate|].
    cbn [rbind] in Hrun.
    destruct (scan_entry_accumulate _ _ _ _ _ Hentry) as [Hf Hr].
    destruct (IH _ _ _ _ Hrun) as [Hf' Hr'].
    unfold frame_metrics, recompose_metrics. cbn [flat_map].
    rewrite !accumulate_app.
    fold (frame_metrics rest). fold (recompose_metrics rest).
    rewrite Hf, Hr. cbn [rbind ok]. now split.
Qed.

(** ** Running the script *)

Lemma stdout_app (t1 t2 : list event) : stdout (t1 ++ t2) = stdout t1 ++ stdout t2.
Proof.
  induction t1 as [ | [l | p | p] t1 IH]; cbn [stdout app]; [reflexivity| |assumption..].
  now rewrite IH.
Qed.

(** With two paths that hold a report and thresholds, the script reaches
    line 20 having probed the first path and read both. *)
Lemma run_given (fs : filesystem) (name benchmark_path thresholds_path : string)
      (report thresholds : json) :
  fs benchmark_path = Regular (Wellformed report) ->
  fs thresholds_path = Regular (Wellformed thresholds) ->
  run fs [name; benchmark_path; thresholds_path] =
  finish (check report thresholds
            [Probe benchmark_path; Read benchmark_path; Read thresholds_path]).
Proof.
  intros Hb Ht. unfold run, main.
  cbn [List.length Nat.eqb negb nth].
  unfold path_exists, read_text, json_loads, sbind, emit, sret, eval.
  rewrite Hb, Ht. reflexivity.
Qed.

(** Lines 20-40 on a report that [measures]. *)
Lemma check_measures (report thresholds : json) (frame_p95 recompose_p95 : option num)
      (tr : list event) :
  measures report frame_p95 recompose_p95 ->
  check report thresholds tr =
  match frame_p95, recompose_p95 with
  | Some f, Some r => compare_thresholds f r thresholds tr
  | _, _ =>
      (tr ++ [Print [Text "Missing required metrics (frameDurationCpuMs or compose:recompose)"]],
       inl (SystemExit 2))
  end.
Proof.
  intros [benchmarks [entries [Hget [Htruthy [Hiter Hscan]]]]].
  unfold check, sbind, eval. rewrite Hget. cbv beta iota delta [ok].
  rewrite Htruthy. cbn [negb]. rewrite Hiter. cbn [rbind ok]. rewrite Hscan.
  destruct frame_p95, recompose_p95; reflexivity.
Qed.

(** Lines 42-53, by what the two comparisons give. *)
Lemma compare_thresholds_frame (f r : num) (thresholds : json) (tr : list event) :
  exceeds f thresholds "frameDurationCpuMsP95" = ok true ->
  compare_thresholds f r thresholds tr =
  (tr ++ map Print (values_lines f r ++ [[Text "Frame-time regression detected"]]),
   inl (SystemExit 1)).
Proof.
  intros Hf. unfold compare_thresholds, sbind, print, emit, eval, sys_exit.
  rewrite Hf. cbv beta iota delta [ok].
  cbn [map app values_lines]. now rewrite <- !app_assoc.
Qed.

Lemma compare_thresholds_recompose (f r : num) (thresholds : json) (tr : list event) :
  exceeds f thresholds "frameDurationCpuMsP95" = ok false ->
  exceeds r thresholds "recompositionCountP95" = ok true ->
  compare_thresholds f r thresholds tr =
  (tr ++ map Print (values_lines f r ++ [[Text "Recomposition-count regression detected"]]),
   inl (SystemExit 1)).
Proof.
  intros Hf Hr. unfold compare_thresholds, sbind, print, emit, eval, sys_exit.
  rewrite Hf. cbv beta iota delta [ok]. rewrite Hr. cbv beta iota delta [ok].
  cbn [map app values_lines]. now rewrite <- !app_assoc.
Qed.

Lemma compare_thresholds_pass (f r : num) (thresholds : json) (tr : list event) :
  exceeds f thresholds "frameDurationCpuMsP95" = ok false ->
  exceeds r thresholds "recompositionCountP95" = ok false ->
  compare_thresholds f r thresholds tr =
  (tr ++ map Print (values_lines f r ++ [[Text "Performance gate passed"]]),
   inr tt).
Proof.
  intros Hf Hr. unfold compare_thresholds, sbind, print, emit, eval, sys_exit.
  rewrite Hf. cbv beta iota delta [ok]. rewrite Hr. cbv beta iota delta [ok].
  cbn [map app values_lines]. now rewrite <- !app_assoc.
Qed.

Lemma stdout_prints (ls : list line) : stdout (map Print ls) = ls.
Proof. induction ls as [ | l ls IH]; [reflexivity|]. cbn. now rewrite IH. Qed.

(** An equal value does not exceed. *)
Lemma equals_not_exceeds (value : num) (thresholds : json) (key : string) :
  equals value thresholds key -> exceeds value thresholds key = ok false.
Proof.
  intros [limit [t [Hget [Hnum Heq]]]]. unfold exceeds, py_gt.
  rewrite Hget. cbv beta iota delta [rbind ok]. rewrite Hnum.
  cbv beta iota delta [rbind ok]. f_equal.
  unfold num_eq in Heq. unfold num_gt.
  destruct (num_compare value t) as [[ | | ] | ]; congruence.
Qed.

(** ** When the maximum is that of the samples alone *)

Lemma SFcompare_int_zero_eq (x : float) :
  SFcompare_int x 0 = Some Eq -> exists s, x = S754_zero s.
Proof.
  destruct x as [s | s | | s m e]; cbn [SFcompare_int].
  - intros _. now exists s.
  - destruct s; discriminate.
  - discriminate.
  - pose proof (signed_sign s m) as Hs.
    generalize dependent (signed s m). intros z Hs.
    rewrite Z.mul_0_l.
    assert (0 <= e -> 0 < 2 ^ e) as Hp by (intros; apply Z.pow_pos_nonneg; lia).
    generalize dependent (2 ^ e). intros p Hp.
    destruct (Z.leb_spec 0 e) as [He | He]; intros [= Hc];
      apply Z.compare_eq_iff in Hc; exfalso; destruct s; try specialize (Hp He); nia.
Qed.

Lemma SFcompare_below_zero (c : float) (s : bool) :
  positive_float c = false -> SFcompare c (S754_zero s) <> Some Gt.
Proof.
  destruct c as [sc | sc | | sc mc ec]; try destruct sc; cbn [positive_float];
    order_cases.
Qed.

Lemma SFcompare_positive_refl (f : float) :
  positive_float f = true -> SFcompare f f = Some Eq.
Proof.
  destruct f as [s | s | | s m e]; try destruct s; cbn [positive_float SFcompare];
    try discriminate; intros _; [reflexivity|].
  rewrite Z.compare_refl.
  change (Pos.compare_cont Eq m m) with (Pos.compare m m).
  now rewrite Pos.compare_refl.
Qed.

(** A settled accumulator is the maximum of the samples themselves as soon
    as one of them is at least 0. *)
Lemma settled_true_maximum (acc : option num) (xs : list float) :
  settled acc xs ->
  Exists (fun x => at_least_zero x = true) xs ->
  true_maximum acc xs.
Proof.
  intros [Hmax Hacc] Hsome. destruct acc as [n | ]; [|exact Hmax].
  destruct Hmax as [_ [Hin Hub]]. cbn [true_maximum].
  destruct Hacc as [-> | [f [-> Hf]]].
  - apply Exists_exists in Hsome. destruct Hsome as [x [Hx Hnonneg]].
    assert (num_gt (NFloat x) (NInt 0) = false) as Hle
        by (apply Hub; right; now apply in_map).
    unfold at_least_zero in Hnonneg. unfold num_gt in Hle. cbn [num_compare] in Hle.
    destruct (SFcompare_int x 0) as [[ | | ] | ] eqn:Hcmp; try discriminate.
    destruct (SFcompare_int_zero_eq x Hcmp) as [s ->].
    exists (NFloat (S754_zero s)). split; [split|reflexivity].
    + now apply in_map.
    + intros y Hy. apply in_map_iff in Hy. destruct Hy as [c [<- Hc]].
      assert (num_gt (NFloat c) (NInt 0) = false) as Hc0
          by (apply Hub; right; now apply in_map).
      rewrite num_gt_float_zero in Hc0.
      destruct (num_gt (NFloat c) (NFloat (S754_zero s))) eqn:Hgt; [|reflexivity].
      apply num_gt_floats in Hgt. now apply SFcompare_below_zero in Hgt.
  - exists (NFloat f). split; [split|].
    + destruct Hin as [Hin | Hin]; [discriminate | exact Hin].
    + intros y Hy. apply Hub. now right.
    + unfold num_eq. cbn [num_compare]. now rewrite SFcompare_positive_refl.
Qed.

(** ** Entries on which the loop completes *)

(** The body of the loop on an entry whose metrics are a mapping. *)
Lemma scan_entry_eq (entry : json) (d : dict) (frame recompose : option num) :
  py_get entry "metrics" (JDict []) = ok (JDict d) ->
  scan_entry (frame, recompose) entry =
  (frame' <- accumulate frame (frame_metric_of entry) ;;
   recompose' <- accumulate recompose (recompose_metrics_of entry) ;;
   ok (frame', recompose'))%result.
Proof.
  intros Hget.
  unfold scan_entry, frame_metric_of, recompose_metrics_of, metrics_of.
  rewrite Hget. cbv beta iota delta [rbind ok].
  cbn [py_get py_items]. cbv beta iota delta [rbind ok].
  rewrite scan_items_accumulate.
  destruct (dict_get "frameDurationCpuMs" d) as [[ | b | z | f | s | l | m] | ];
    cbn [is_dict accumulate]; cbv beta iota delta [rbind ok]; try reflexivity.
  now destruct (bump frame (JDict m)).
Qed.

Lemma accumulate_completes (metrics : list json) :
  Forall (fun m => exists x, p95_of m = ok x) metrics ->
  forall acc, exists acc', accumulate acc metrics = ok acc'.
Proof.
  induction 1 as [ | m rest [x Hx] _ IH]; intros acc; [now exists acc|].
  cbn [accumulate]. unfold bump at 1. rewrite Hx. cbv beta iota delta [rbind ok].
  apply IH.
Qed.

Lemma scan_from_completes (entries : list json) :
  Forall well_shaped entries ->
  forall st, exists st', scan_from st entries = ok st'.
Proof.
  induction 1 as [ | entry rest [[d Hd] Hp95] _ IH]; intros [frame recompose].
  - now exists (frame, recompose).
  - cbn [scan_from]. rewrite (scan_entry_eq entry d _ _ Hd).
    apply Forall_app in Hp95. destruct Hp95 as [Hf Hr].
    destruct (accumulate_completes _ Hf frame) as [frame' ->].
    destruct (accumulate_completes _ Hr recompose) as [recompose' ->].
    cbv beta iota delta [rbind ok]. apply IH.
Qed.

(** The loop completes on well-shaped entries. *)
Lemma scan_completes (entries : list json) :
  Forall well_shaped entries ->
  exists frame_p95 recompose_p95, scan entries = ok (frame_p95, recompose_p95).
Proof.
  intros Hshape.
  destruct (scan_from_completes entries Hshape (None, None)) as [[f r] Hscan].
  now exists f, r.
Qed.

(** ** The derived values *)

(** C1, amended.  When the loop over the entries completes, every
    [frameDurationCpuMs] mapping has given the sample
    [float(m.get("P95", 0))]; [frame_p95] is undefined when there is no
    such mapping, and otherwise is the maximum of 0 and the samples.
    Entries without the mapping contribute nothing.  It is the maximum of
    the samples themselves as soon as one sample is at least 0. *)
Theorem frame_p95_max_with_zero (entries : list json) (frame_p95 recompose_p95 : option num) :
  scan entries = ok (frame_p95, recompose_p95) ->
  exists xs,
    samples (frame_metrics entries) xs /\
    max_with_zero frame_p95 xs /\
    (Exists (fun x => at_least_zero x = true) xs -> true_maximum frame_p95 xs).
Proof.
  intros Hscan. apply scan_from_accumulate in Hscan. destruct Hscan as [Hframe _].
  destruct (accumulate_settled _ _ _ [] settled_start Hframe) as [xs [Hxs Hsettled]].
  exists xs. split; [exact Hxs|]. split; [apply Hsettled|].
  now apply settled_true_maximum.
Qed.

Lemma recompose_name_not_frame (key : string) :
  contains "compose:recompose" key = true ->
  String.eqb "frameDurationCpuMs" key = false.
Proof.
  intros Hkey. destruct (String.eqb_spec "frameDurationCpuMs" key) as [<- | Hne];
    [|reflexivity].
  vm_compute in Hkey. discriminate.
Qed.

(** What one entry that holds a single recomposition metric does to the two
    variables. *)
Lemma scan_entry_recompose (key : string) (z : Z) (x : float)
      (frame_p95 recompose_p95 : option num) :
  contains "compose:recompose" key = true ->
  float_of_int z = ok x ->
  scan_entry (frame_p95, recompose_p95) (entry_with key (JInt z)) =
  ok (frame_p95, Some (py_max (or_zero recompose_p95) (NFloat x))).
Proof.
  intros Hkey Hx. unfold scan_entry, entry_with.
  cbn [py_get dict_get]. rewrite String.eqb_refl. cbn [rbind ok py_get dict_get].
  rewrite (recompose_name_not_frame key Hkey).
  cbn [is_dict rbind ok py_items scan_items]. rewrite Hkey.
  cbn [andb is_dict]. unfold bump, p95_of.
  cbn [py_get dict_get]. rewrite String.eqb_refl. cbn [rbind ok py_float].
  rewrite Hx. reflexivity.
Qed.

(** C3, amended.  When the loop over the entries completes, every mapping
    under a metric name that contains [compose:recompose] has given the
    sample [float(m.get("P95", 0))]; [recompose_p95] is undefined when
    there is no such mapping, and otherwise is the maximum of 0 and the
    samples; it is the maximum of the samples themselves as soon as one
    sample is at least 0.  Two entries whose recomposition metrics have the
    P95 values 3 and 7 give 7, in either order. *)
Theorem recompose_p95_max_with_zero :
  (forall (entries : list json) (frame_p95 recompose_p95 : option num),
      scan entries = ok (frame_p95, recompose_p95) ->
      exists xs,
        samples (recompose_metrics entries) xs /\
        max_with_zero recompose_p95 xs /\
        (Exists (fun x => at_least_zero x = true) xs ->
         true_maximum recompose_p95 xs)) /\
  (forall key1 key2 : string,
      contains "compose:recompose" key1 = true ->
      contains "compose:recompose" key2 = true ->
      scan [entry_with key1 (JInt 3); entry_with key2 (JInt 7)] =
        ok (None, Some (NFloat f_seven)) /\
      scan [entry_with key1 (JInt 7); entry_with key2 (JInt 3)] =
        ok (None, Some (NFloat f_seven))).
Proof.
  split.
  - intros entries frame_p95 recompose_p95 Hscan.
    apply scan_from_accumulate in Hscan. destruct Hscan as [_ Hrecompose].
    destruct (accumulate_settled _ _ _ [] settled_start Hrecompose)
      as [xs [Hxs Hsettled]].
    exists xs. split; [exact Hxs|]. split; [apply Hsettled|].
    now apply settled_true_maximum.
  - intros key1 key2 H1 H2.
    assert (float_of_int 3 = ok f_three) as H3 by reflexivity.
    assert (float_of_int 7 = ok f_seven) as H7 by reflexivity.
    unfold scan. cbn [scan_from].
    split.
    + rewrite (scan_entry_recompose key1 3 f_three None None H1 H3). cbn [rbind ok].
      rewrite (scan_entry_recompose key2 7 f_seven _ _ H2 H7). reflexivity.
    + rewrite (scan_entry_recompose key1 7 f_seven None None H1 H7). cbn [rbind ok].
      rewrite (scan_entry_recompose key2 3 f_three _ _ H2 H3). reflexivity.
Qed.

(** ** The guards *)

(** C7.  With any number of arguments other than two, the script prints the
    usage line and exits with status 2, and that is all it does: it
    probes and reads no file, whatever the file system holds. *)
Theorem wrong_argument_count_is_usage_error (fs : filesystem) (argv : list string) :
  List.length argv <> 3%nat ->
  run fs argv = ([Print usage], Exit 2).
Proof.
  intros Hlen. unfold run, main.
  destruct (Nat.eqb_spec (List.length argv) 3) as [Heq | _]; [contradiction|].
  reflexivity.
Qed.

(** C8.  When [json.loads] is given a text that does not parse, the
    report's at line 17 or, the report parsed, the thresholds' at line 18,
    the script ends by the uncaught [JSONDecodeError]: it has printed
    nothing and ends with no exit status of its own. *)
Theorem malformed_input_is_uncaught
        (fs : filesystem) (name benchmark_path thresholds_path : string) :
  fs benchmark_path = Regular Malformed \/
  ((exists report, fs benchmark_path = Regular (Wellformed report)) /\
   fs thresholds_path = Regular Malformed) ->
  printed fs [name; benchmark_path; thresholds_path] = [] /\
  ended fs [name; benchmark_path; thresholds_path] = Traceback JSONDecodeError.
Proof.
  intros Hbad. unfold printed, ended, run, main.
  cbn [List.length Nat.eqb negb nth].
  unfold path_exists, read_text, json_loads, sbind, emit, sret, eval.
  destruct Hbad as [Hb | [[report Hb] Ht]]; rewrite Hb; [now split|].
  cbv beta iota delta [ok negb]. rewrite Ht. now split.
Qed.

(** C10.  The thresholds path is not probed: with a report that is there
    and no thresholds file, the script probes the report path, reads the
    report, tries to read the thresholds and ends by the uncaught
    [FileNotFoundError]; it prints nothing and chooses no exit status. *)
Theorem missing_thresholds_file_is_uncaught
        (fs : filesystem) (name benchmark_path thresholds_path : string)
        (report : json) :
  fs benchmark_path = Regular (Wellformed report) ->
  fs thresholds_path = Absent ->
  run fs [name; benchmark_path; thresholds_path] =
  ([Probe benchmark_path; Read benchmark_path; Read thresholds_path],
   Traceback FileNotFoundError).
Proof.
  intros Hb Ht. unfold run, main.
  cbn [List.length Nat.eqb negb nth].
  unfold path_exists, read_text, json_loads, sbind, emit, sret, eval.
  rewrite Hb, Ht. reflexivity.
Qed.

(** The same invocation with a report that does not parse: the parse
    failure of line 17 comes before the thresholds file is tried. *)
Lemma malformed_report_comes_first
      (fs : filesystem) (name benchmark_path thresholds_path : string) :
  fs benchmark_path = Regular Malformed ->
  run fs [name; benchmark_path; thresholds_path] =
  ([Probe benchmark_path; Read benchmark_path], Traceback JSONDecodeError).
Proof.
  intros Hb. unfold run, main.
  cbn [List.length Nat.eqb negb nth].
  unfold path_exists, read_text, json_loads, sbind, emit, sret, eval.
  rewrite Hb. reflexivity.
Qed.

(** X17.  Lines 13-15: a report path that names nothing makes the script
    print "Benchmark report not found: <path>" and exit with status 2,
    having probed that path and touched nothing else: no file is read and
    the thresholds path is not looked at. *)
Lemma missing_report_is_data_error
      (fs : filesystem) (name benchmark_path thresholds_path : string) :
  fs benchmark_path = Absent ->
  run fs [name; benchmark_path; thresholds_path] =
  ([Probe benchmark_path;
    Print [Text "Benchmark report not found: "; OfPath benchmark_path]],
   Exit 2).
Proof.
  intros Hb. unfold run, main.
  cbn [List.length Nat.eqb negb nth].
  unfold path_exists, read_text, json_loads, sbind, emit, sret, eval.
  rewrite Hb. reflexivity.
Qed.

(** C6.  A report whose entry sequence is empty (or absent, which [get]
    turns into the empty one) makes the script print
    "No benchmark entries found" and exit with status 2, whatever the
    thresholds are and before anything is computed from either. *)
Theorem empty_report_is_data_error
        (fs : filesystem) (argv : list string) (report thresholds : json) :
  given fs argv report thresholds ->
  py_get report "benchmarks" (JList []) = ok (JList []) ->
  printed fs argv = [[Text "No benchmark entries found"]] /\
  ended fs argv = Exit 2.
Proof.
  intros [name [bp [tp [-> [Hb Ht]]]]] Hget.
  unfold printed, ended. rewrite (run_given _ _ _ _ _ _ Hb Ht).
  unfold check, sbind, eval. rewrite Hget. now split.
Qed.

(** C4.  When the loop completes and has left [frame_p95] or
    [recompose_p95] undefined, the script prints
    "Missing required metrics (frameDurationCpuMs or compose:recompose)"
    and exits with status 2, whatever the thresholds are: they are not
    looked at. *)
Theorem missing_metrics_is_data_error
        (fs : filesystem) (argv : list string) (report thresholds : json)
        (frame_p95 recompose_p95 : option num) :
  given fs argv report thresholds ->
  measures report frame_p95 recompose_p95 ->
  frame_p95 = None \/ recompose_p95 = None ->
  printed fs argv =
    [[Text "Missing required metrics (frameDurationCpuMs or compose:recompose)"]] /\
  ended fs argv = Exit 2.
Proof.
  intros [name [bp [tp [-> [Hb Ht]]]]] Hmeasures Hnone.
  unfold printed, ended. rewrite (run_given _ _ _ _ _ _ Hb Ht).
  rewrite (check_measures _ thresholds _ _ _ Hmeasures).
  destruct Hnone as [-> | ->]; [|destruct frame_p95]; now split.
Qed.

(** ** The comparisons *)

Lemma run_compare (fs : filesystem) (argv : list string) (report thresholds : json)
      (f r : num) :
  given fs argv report thresholds ->
  measures report (Some f) (Some r) ->
  exists tr, stdout tr = [] /\
             run fs argv = finish (compare_thresholds f r thresholds tr).
Proof.
  intros [name [bp [tp [-> [Hb Ht]]]]] Hmeasures.
  exists [Probe bp; Read bp; Read tp]. split; [reflexivity|].
  rewrite (run_given _ _ _ _ _ _ Hb Ht).
  now rewrite (check_measures _ thresholds _ _ _ Hmeasures).
Qed.

(** C2.  With both values defined, a [frame_p95] above its threshold makes
    the script print "Frame-time regression detected" after the two values
    and exit with status 1, whatever [recompose_p95] and its threshold are;
    failing that, a [recompose_p95] above its threshold makes it print
    "Recomposition-count regression detected" and exit with status 1. *)
Theorem frame_check_precedes_recomposition_check
        (fs : filesystem) (argv : list string) (report thresholds : json)
        (frame_p95 recompose_p95 : num) :
  given fs argv report thresholds ->
  measures report (Some frame_p95) (Some recompose_p95) ->
  (exceeds frame_p95 thresholds "frameDurationCpuMsP95" = ok true ->
   printed fs argv =
     values_lines frame_p95 recompose_p95 ++ [[Text "Frame-time regression detected"]] /\
   ended fs argv = Exit 1) /\
  (exceeds frame_p95 thresholds "frameDurationCpuMsP95" = ok false ->
   exceeds recompose_p95 thresholds "recompositionCountP95" = ok true ->
   printed fs argv =
     values_lines frame_p95 recompose_p95 ++
     [[Text "Recomposition-count regression detected"]] /\
   ended fs argv = Exit 1).
Proof.
  intros Hgiven Hmeasures.
  destruct (run_compare _ _ _ _ _ _ Hgiven Hmeasures) as [tr [Hquiet Hrun]].
  unfold printed, ended. rewrite Hrun. split.
  - intros Hf. rewrite (compare_thresholds_frame _ _ _ _ Hf).
    cbn [finish fst snd]. rewrite stdout_app, Hquiet, stdout_prints. now split.
  - intros Hf Hr. rewrite (compare_thresholds_recompose _ _ _ _ Hf Hr).
    cbn [finish fst snd]. rewrite stdout_app, Hquiet, stdout_prints. now split.
Qed.

(** C5.  With both values defined and neither above its threshold, the
    script prints [frameDurationCpuMs P95 = <value>], then
    [recomposition P95 = <value>], then "Performance gate passed", and
    ends with status 0. *)
Theorem within_thresholds_passes
        (fs : filesystem) (argv : list string) (report thresholds : json)
        (frame_p95 recompose_p95 : num) :
  given fs argv report thresholds ->
  measures report (Some frame_p95) (Some recompose_p95) ->
  exceeds frame_p95 thresholds "frameDurationCpuMsP95" = ok false ->
  exceeds recompose_p95 thresholds "recompositionCountP95" = ok false ->
  printed fs argv =
    [[Text "frameDurationCpuMs P95 = "; OfNum frame_p95];
     [Text "recomposition P95 = "; OfNum recompose_p95];
     [Text "Performance gate passed"]] /\
  ended fs argv = Exit 0.
Proof.
  intros Hgiven Hmeasures Hf Hr.
  destruct (run_compare _ _ _ _ _ _ Hgiven Hmeasures) as [tr [Hquiet Hrun]].
  unfold printed, ended. rewrite Hrun.
  rewrite (compare_thresholds_pass _ _ _ _ Hf Hr).
  cbn [finish fst snd]. rewrite stdout_app, Hquiet, stdout_prints. now split.
Qed.

(** C9.  The comparisons are strict: with both values equal to their
    thresholds no regression is reported; the script prints the two values
    and "Performance gate passed", and ends with status 0. *)
Theorem equal_to_thresholds_passes
        (fs : filesystem) (argv : list string) (report thresholds : json)
        (frame_p95 recompose_p95 : num) :
  given fs argv report thresholds ->
  measures report (Some frame_p95) (Some recompose_p95) ->
  equals frame_p95 thresholds "frameDurationCpuMsP95" ->
  equals recompose_p95 thresholds "recompositionCountP95" ->
  printed fs argv =
    values_lines frame_p95 recompose_p95 ++ [[Text "Performance gate passed"]] /\
  ended fs argv = Exit 0.
Proof.
  intros Hgiven Hmeasures Hf Hr.
  apply equals_not_exceeds in Hf. apply equals_not_exceeds in Hr.
  destruct (run_compare _ _ _ _ _ _ Hgiven Hmeasures) as [tr [Hquiet Hrun]].
  unfold printed, ended. rewrite Hrun.
  rewrite (compare_thresholds_pass _ _ _ _ Hf Hr).
  cbn [finish fst snd]. rewrite stdout_app, Hquiet, stdout_prints. now split.
Qed.

(** * More of the script's behaviour *)

(** ** The loop completes exactly on well-shaped entries *)

Lemma rbind_ok {A B : Type} (m : result A) (k : A -> result B) (b : B) :
  rbind m k = ok b -> exists a, m = ok a /\ k a = ok b.
Proof. destruct m as [e | a]; [discriminate|]. intros H. now exists a. Qed.

Lemma scan_entry_has_metrics (entry : json) (st st' : option num * option num) :
  scan_entry st entry = ok st' -> has_metrics entry.
Proof.
  destruct st as [f r]. unfold scan_entry, has_metrics.
  destruct (py_get entry "metrics" (JDict [])) as [e | metrics]; [discriminate|].
  destruct metrics as [ | b | z | x | s | l | d]; try discriminate.
  intros _. now exists d.
Qed.

Lemma accumulate_ok_samples (metrics : list json) :
  forall acc acc', accumulate acc metrics = ok acc' ->
                   Forall (fun m => exists x, p95_of m = ok x) metrics.
Proof.
  induction metrics as [ | m rest IH]; intros acc acc' Hrun; [constructor|].
  cbn [accumulate] in Hrun. apply rbind_ok in Hrun. destruct Hrun as [a [Hm Hrest]].
  unfold bump in Hm. apply rbind_ok in Hm. destruct Hm as [x [Hx _]].
  constructor; [now exists x | now apply (IH a acc')].
Qed.

(** The loop over the entries is the two accumulations, as soon as every
    entry has its metrics. *)
Lemma scan_from_iff (entries : list json) :
  forall frame recompose frame' recompose',
    scan_from (frame, recompose) entries = ok (frame', recompose') <->
    Forall has_metrics entries /\
    accumulate frame (frame_metrics entries) = ok frame' /\
    accumulate recompose (recompose_metrics entries) = ok recompose'.
Proof.
  induction entries as [ | entry rest IH]; intros frame recompose frame' recompose'.
  - cbn [scan_from frame_metrics recompose_metrics flat_map accumulate]. split.
    + intros [= <- <-]. now repeat split.
    + intros [_ [[= <-] [= <-]]]. reflexivity.
  - cbn [scan_from]. unfold frame_metrics, recompose_metrics. cbn [flat_map].
    fold (frame_metrics rest). fold (recompose_metrics rest).
    rewrite !accumulate_app. split.
    + intros Hrun. apply rbind_ok in Hrun. destruct Hrun as [[f1 r1] [Hentry Hrest]].
      pose proof (scan_entry_has_metrics _ _ _ Hentry) as Hm.
      destruct (scan_entry_accumulate _ _ _ _ _ Hentry) as [Hf Hr].
      apply IH in Hrest. destruct Hrest as [Hall [Hf' Hr']].
      rewrite Hf, Hr. cbv beta iota delta [rbind ok]. now repeat split; try constructor.
    + intros [Hall [Hf Hr]]. inversion Hall as [ | ? ? [d Hd] Hall']; subst.
      apply rbind_ok in Hf. destruct Hf as [f1 [Hf1 Hf]].
      apply rbind_ok in Hr. destruct Hr as [r1 [Hr1 Hr]].
      rewrite (scan_entry_eq entry d _ _ Hd), Hf1, Hr1.
      cbv beta iota delta [rbind ok]. apply IH. now repeat split.
Qed.

Lemma scan_ok_well_shaped (entries : list json) (frame_p95 recompose_p95 : option num) :
  scan entries = ok (frame_p95, recompose_p95) -> Forall well_shaped entries.
Proof.
  intros Hscan. apply scan_from_iff in Hscan.
  destruct Hscan as [Hall [Hf Hr]].
  apply accumulate_ok_samples in Hf. apply accumulate_ok_samples in Hr.
  unfold frame_metrics in Hf. unfold recompose_metrics in Hr.
  rewrite Forall_flat_map in Hf, Hr.
  rewrite Forall_forall in *. intros entry Hin. split; [now apply Hall|].
  apply Forall_app. split; [now apply Hf | now apply Hr].
Qed.

(** X1.  The loop over the entries completes, whatever the values it
    leaves, exactly when every entry is well shaped: a mapping, with
    metrics that are a mapping, whose frame mapping and recomposition
    mappings have a P95 that [float] accepts.  Nothing else in an entry can
    make it raise. *)
Theorem scan_completes_iff (entries : list json) :
  (exists frame_p95 recompose_p95, scan entries = ok (frame_p95, recompose_p95)) <->
  Forall well_shaped entries.
Proof.
  split.
  - intros [f [r Hscan]]. now apply (scan_ok_well_shaped entries f r).
  - intros Hshape. destruct (scan_from_completes entries Hshape (None, None)) as [[f r] H].
    now exists f, r.
Qed.

(** ** The values the loop leaves *)

(** X2.  A derived value that is defined is the int 0 or a float above
    zero: the loop never leaves a negative number, a NaN or a float zero in
    either variable. *)
Theorem derived_values_floor_or_positive
        (entries : list json) (frame_p95 recompose_p95 : option num) :
  scan entries = ok (frame_p95, recompose_p95) ->
  (forall n, frame_p95 = Some n -> floor_or_positive n) /\
  (forall n, recompose_p95 = Some n -> floor_or_positive n).
Proof.
  intros Hscan. apply scan_from_accumulate in Hscan. destruct Hscan as [Hf Hr].
  destruct (accumulate_settled _ _ _ [] settled_start Hf) as [xs [_ [_ Hfp]]].
  destruct (accumulate_settled _ _ _ [] settled_start Hr) as [ys [_ [_ Hrp]]].
  split; intros n ->; assumption.
Qed.

Lemma positive_compare_eq (a b : float) :
  positive_float a = true -> positive_float b = true ->
  SFcompare a b <> Some Gt -> SFcompare b a <> Some Gt -> a = b.
Proof.
  destruct a as [sa | sa | | sa ma ea]; destruct b as [sb | sb | | sb mb eb];
    try destruct sa; try destruct sb; cbn [positive_float];
    order_cases.
Qed.

(** Two settled accumulators over the same samples are the same. *)
Lemma settled_unique (a a' : option num) (xs xs' : list float) :
  settled a xs -> settled a' xs' ->
  (forall x, In x xs <-> In x xs') ->
  a = a'.
Proof.
  intros [Hmax Ha] [Hmax' Ha'] Hsame.
  assert (xs = [] <-> xs' = []) as Hnil.
  { split; intros ->.
    - destruct xs' as [ | x xs']; [reflexivity|]. destruct (proj2 (Hsame x)); now left.
    - destruct xs as [ | x xs]; [reflexivity|]. destruct (proj1 (Hsame x)); now left. }
  destruct a as [n | ], a' as [n' | ]; cbn [max_with_zero] in Hmax, Hmax'.
  - f_equal. destruct Hmax as [_ [Hin Hub]], Hmax' as [_ [Hin' Hub']].
    assert (forall f, In (NFloat f) (NInt 0 :: map NFloat xs) ->
                      In (NFloat f) (NInt 0 :: map NFloat xs')) as Hto.
    { intros f [Hf | Hf]; [discriminate|]. right.
      apply in_map_iff in Hf. destruct Hf as [c [[= ->] Hc]].
      apply in_map. now apply Hsame. }
    assert (forall f, In (NFloat f) (NInt 0 :: map NFloat xs') ->
                      In (NFloat f) (NInt 0 :: map NFloat xs)) as Hfrom.
    { intros f [Hf | Hf]; [discriminate|]. right.
      apply in_map_iff in Hf. destruct Hf as [c [[= ->] Hc]].
      apply in_map. now apply Hsame. }
    destruct Ha as [-> | [f [-> Hf]]], Ha' as [-> | [f' [-> Hf']]].
    + reflexivity.
    + apply Hfrom, Hub in Hin'. rewrite num_gt_float_zero in Hin'. congruence.
    + apply Hto, Hub' in Hin. rewrite num_gt_float_zero in Hin. congruence.
    + f_equal. apply positive_compare_eq; auto.
      * intros Hgt. apply num_gt_floats in Hgt.
        apply Hto, Hub' in Hin. congruence.
      * intros Hgt. apply num_gt_floats in Hgt.
        apply Hfrom, Hub in Hin'. congruence.
  - destruct Hmax as [Hne _]. now apply Hnil in Hmax'.
  - destruct Hmax' as [Hne _]. now apply Hnil in Hmax.
  - reflexivity.
Qed.

Lemma samples_functional (metrics : list json) (xs ys : list float) :
  samples metrics xs -> samples metrics ys -> xs = ys.
Proof.
  intros Hxs. revert ys. induction Hxs as [ | m x ms xs Hx _ IH]; intros ys Hys.
  - now inversion Hys.
  - inversion Hys as [ | ? y ? ys' Hy Hys']; subst.
    rewrite Hx in Hy. injection Hy as <-. f_equal. now apply IH.
Qed.

(** An accumulation from the start gives the same value over the same
    mappings in another order. *)
Lemma accumulate_permutation (metrics metrics' : list json) (acc : option num) :
  Permutation metrics metrics' ->
  accumulate None metrics = ok acc ->
  accumulate None metrics' = ok acc.
Proof.
  intros Hperm Hrun.
  pose proof (accumulate_ok_samples _ _ _ Hrun) as Hall.
  rewrite Hperm in Hall.
  destruct (accumulate_completes _ Hall None) as [acc' Hrun'].
  destruct (accumulate_settled _ _ _ [] settled_start Hrun) as [xs [Hxs Hs]].
  destruct (accumulate_settled _ _ _ [] settled_start Hrun') as [xs' [Hxs' Hs']].
  destruct (Permutation_Forall2 Hperm Hxs) as [xs'' [Hp Hxs'']].
  rewrite (samples_functional _ _ _ Hxs' Hxs'') in Hs'.
  rewrite Hrun'. f_equal. symmetry.
  apply (settled_unique _ _ _ _ Hs Hs').
  intros x. split; apply Permutation_in; [exact Hp | now symmetry].
Qed.

(** X3.  The order of the entries does not matter: when the loop completes
    on a sequence of entries it completes on every rearrangement of it, with
    the same two values. *)
Theorem scan_order_irrelevant
        (entries entries' : list json) (frame_p95 recompose_p95 : option num) :
  Permutation entries entries' ->
  scan entries = ok (frame_p95, recompose_p95) ->
  scan entries' = ok (frame_p95, recompose_p95).
Proof.
  intros Hperm Hscan. unfold scan in *.
  apply scan_from_iff in Hscan. destruct Hscan as [Hall [Hf Hr]].
  apply scan_from_iff. split; [now rewrite <- Hperm|]. split.
  - apply (accumulate_permutation (frame_metrics entries)); [|exact Hf].
    unfold frame_metrics. now rewrite Hperm.
  - apply (accumulate_permutation (recompose_metrics entries)); [|exact Hr].
    unfold recompose_metrics. now rewrite Hperm.
Qed.

(** X4.  Only the frame mappings and the recomposition mappings count: two
    sequences of entries that all have their metrics, with the same frame
    mappings and the same recomposition mappings, leave the same two
    values, whatever other metrics and fields they hold. *)
Theorem scan_ignores_other_metrics
        (entries entries' : list json) (frame_p95 recompose_p95 : option num) :
  Forall has_metrics entries' ->
  frame_metrics entries' = frame_metrics entries ->
  recompose_metrics entries' = recompose_metrics entries ->
  scan entries = ok (frame_p95, recompose_p95) ->
  scan entries' = ok (frame_p95, recompose_p95).
Proof.
  intros Hall Hframe Hrecompose Hscan. unfold scan in *.
  apply scan_from_iff in Hscan. destruct Hscan as [_ [Hf Hr]].
  apply scan_from_iff. rewrite Hframe, Hrecompose. now repeat split.
Qed.

(** ** Every way the script can go *)

(** Lines 6-18: the run stops there, or reaches line 20 with both values
    parsed. *)
Lemma run_cases (fs : filesystem) (argv : list string) :
  (List.length argv <> 3%nat /\ run fs argv = ([Print usage], Exit 2)) \/
  exists name benchmark_path thresholds_path,
    argv = [name; benchmark_path; thresholds_path] /\
    ((fs benchmark_path = Absent /\
      run fs argv = ([Probe benchmark_path; Print (not_found benchmark_path)], Exit 2)) \/
     (exists e, stdout (fst (run fs argv)) = [] /\ snd (run fs argv) = Traceback e /\
                (forall report thresholds, ~ given fs argv report thresholds)) \/
     (exists report thresholds,
         given fs argv report thresholds /\
         run fs argv =
         finish (check report thresholds
                   [Probe benchmark_path; Read benchmark_path; Read thresholds_path]))).
Proof.
  destruct argv as [ | name [ | bp [ | tp [ | extra rest]]]];
    try (left; split; [discriminate | reflexivity]).
  right. exists name, bp, tp. split; [reflexivity|].
  assert (fs bp = Directory \/ fs bp = Regular Malformed \/
          fs tp = Absent \/ fs tp = Directory \/ fs tp = Regular Malformed ->
          forall report thresholds, ~ given fs [name; bp; tp] report thresholds) as Hnot.
  { intros Hbad report thresholds [n [b [t [[= -> -> ->] [Hb Ht]]]]].
    destruct Hbad as [H | [H | [H | [H | H]]]]; congruence. }
  unfold run, main. cbn [List.length Nat.eqb negb nth].
  unfold path_exists, read_text, json_loads, sbind, emit, sret, eval.
  destruct (fs bp) as [ | | [ | report]] eqn:Hb.
  - left. now split.
  - right. left. exists IsADirectoryError. repeat split. apply Hnot; auto.
  - right. left. exists JSONDecodeError. repeat split. apply Hnot; auto.
  - cbv beta iota delta [ok negb app]. cbn [app].
    destruct (fs tp) as [ | | [ | thresholds]] eqn:Ht.
    + right. left. exists FileNotFoundError. repeat split. apply Hnot; auto.
    + right. left. exists IsADirectoryError. repeat split. apply Hnot; auto.
    + right. left. exists JSONDecodeError. repeat split. apply Hnot; auto 6.
    + right. right. exists report, thresholds. split; [|reflexivity].
      now exists name, bp, tp.
Qed.

(** Lines 20-40. *)
Lemma check_cases (report thresholds : json) (tr : list event) :
  (exists e, check report thresholds tr = (tr, inl (Uncaught e)) /\
             forall f r, ~ measures report f r) \/
  (check report thresholds tr = (tr ++ [Print no_entries], inl (SystemExit 2)) /\
   forall f r, ~ measures report f r) \/
  (exists f r, measures report f r /\
               check report thresholds tr =
               match f, r with
               | Some f, Some r => compare_thresholds f r thresholds tr
               | _, _ => (tr ++ [Print missing_metrics], inl (SystemExit 2))
               end).
Proof.
  unfold check, sbind, eval, measures.
  destruct (py_get report "benchmarks" (JList [])) as [e | benchmarks] eqn:Hget.
  { left. exists e. split; [reflexivity|].
    intros f r [b [es [Hb _]]]. discriminate. }
  destruct (truthy benchmarks) eqn:Htruthy; cbn [negb].
  2: { right. left. split; [reflexivity|].
       intros f r [b [es [[= <-] [Hb _]]]]. congruence. }
  destruct (py_iter benchmarks) as [e | entries] eqn:Hiter.
  { left. exists e. split; [reflexivity|].
    intros f r [b [es [[= <-] [_ [Hes _]]]]]. rewrite Hiter in Hes. discriminate. }
  cbv beta iota delta [rbind ok].
  destruct (scan entries) as [e | [f r]] eqn:Hscan.
  { left. exists e. split; [reflexivity|].
    intros f r [b [es [[= <-] [_ [Hes Hsc]]]]].
    rewrite Hiter in Hes. injection Hes as <-. rewrite Hscan in Hsc. discriminate. }
  right. right. exists f, r. split.
  - exists benchmarks, entries. now repeat split.
  - destruct f, r; reflexivity.
Qed.

Lemma compare_thresholds_frame_raises (f r : num) (thresholds : json) (tr : list event)
      (e : exn) :
  exceeds f thresholds "frameDurationCpuMsP95" = inl e ->
  compare_thresholds f r thresholds tr =
  (tr ++ map Print (values_lines f r), inl (Uncaught e)).
Proof.
  intros Hf. unfold compare_thresholds, sbind, print, emit, eval. rewrite Hf.
  cbn [map values_lines]. now rewrite <- !app_assoc.
Qed.

Lemma compare_thresholds_recompose_raises (f r : num) (thresholds : json)
      (tr : list event) (e : exn) :
  exceeds f thresholds "frameDurationCpuMsP95" = ok false ->
  exceeds r thresholds "recompositionCountP95" = inl e ->
  compare_thresholds f r thresholds tr =
  (tr ++ map Print (values_lines f r), inl (Uncaught e)).
Proof.
  intros Hf Hr. unfold compare_thresholds, sbind, print, emit, eval. rewrite Hf.
  cbv beta iota delta [ok]. rewrite Hr.
  cbn [map values_lines]. now rewrite <- !app_assoc.
Qed.

(** Lines 42-53: the five ways through them. *)
Lemma compare_cases (f r : num) (thresholds : json) (tr : list event) :
  let frame := exceeds f thresholds "frameDurationCpuMsP95" in
  let recompose := exceeds r thresholds "recompositionCountP95" in
  (exists e, (frame = inl e \/ (frame = ok false /\ recompose = inl e)) /\
             compare_thresholds f r thresholds tr =
             (tr ++ map Print (values_lines f r), inl (Uncaught e))) \/
  (frame = ok true /\
   compare_thresholds f r thresholds tr =
   (tr ++ map Print (values_lines f r ++ [[Text "Frame-time regression detected"]]),
    inl (SystemExit 1))) \/
  (frame = ok false /\ recompose = ok true /\
   compare_thresholds f r thresholds tr =
   (tr ++ map Print (values_lines f r ++
                     [[Text "Recomposition-count regression detected"]]),
    inl (SystemExit 1))) \/
  (frame = ok false /\ recompose = ok false /\
   compare_thresholds f r thresholds tr =
   (tr ++ map Print (values_lines f r ++ [[Text "Performance gate passed"]]), inr tt)).
Proof.
  intros frame recompose.
  destruct frame as [e | [ | ]] eqn:Hf; subst frame.
  - left. exists e. split; [now left|]. now apply compare_thresholds_frame_raises.
  - right. left. split; [reflexivity|]. now apply compare_thresholds_frame.
  - destruct recompose as [e | [ | ]] eqn:Hr; subst recompose.
    + left. exists e. split; [now right|].
      now apply compare_thresholds_recompose_raises.
    + right. right. left. repeat split. now apply compare_thresholds_recompose.
    + right. right. right. repeat split. now apply compare_thresholds_pass.
Qed.

Lemma stdout_prelude_app (b t : string) (ls : list line) :
  stdout ([Probe b; Read b; Read t] ++ map Print ls) = ls.
Proof. cbn [app stdout]. apply stdout_prints. Qed.

(** What a run printed and how it ended, in every case. *)
Lemma run_outcomes (fs : filesystem) (argv : list string) :
  (List.length argv <> 3%nat /\ printed fs argv = [usage] /\ ended fs argv = Exit 2) \/
  (exists benchmark_path,
      printed fs argv = [not_found benchmark_path] /\ ended fs argv = Exit 2) \/
  (exists e, printed fs argv = [] /\ ended fs argv = Traceback e) \/
  (printed fs argv = [no_entries] /\ ended fs argv = Exit 2) \/
  (printed fs argv = [missing_metrics] /\ ended fs argv = Exit 2) \/
  (exists report thresholds f r,
      given fs argv report thresholds /\
      measures report (Some f) (Some r) /\
      let frame := exceeds f thresholds "frameDurationCpuMsP95" in
      let recompose := exceeds r thresholds "recompositionCountP95" in
      ((exists e, printed fs argv = values_lines f r /\ ended fs argv = Traceback e) \/
       (frame = ok true /\
        printed fs argv = values_lines f r ++ [[Text "Frame-time regression detected"]] /\
        ended fs argv = Exit 1) \/
       (frame = ok false /\ recompose = ok true /\
        printed fs argv =
          values_lines f r ++ [[Text "Recomposition-count regression detected"]] /\
        ended fs argv = Exit 1) \/
       (frame = ok false /\ recompose = ok false /\
        printed fs argv = values_lines f r ++ [[Text "Performance gate passed"]] /\
        ended fs argv = Exit 0))).
Proof.
  unfold printed, ended.
  destruct (run_cases fs argv) as [[Hlen ->] | [name [bp [tp [-> Hrun]]]]].
  { left. now repeat split. }
  destruct Hrun as [[_ ->] | [[e [Hout [Hend _]]] | [report [thresholds [Hgiven ->]]]]].
  { right. left. exists bp. now split. }
  { right. right. left. exists e. now split. }
  destruct (check_cases report thresholds [Probe bp; Read bp; Read tp])
    as [[e [-> _]] | [[-> _] | [f [r [Hmeasures ->]]]]].
  { right. right. left. exists e. now split. }
  { right. right. right. left. now split. }
  destruct f as [f | ]; [destruct r as [r | ]|];
    try (right; right; right; right; left; now split).
  do 5 right. exists report, thresholds, f, r.
  split; [exact Hgiven|]. split; [exact Hmeasures|]. cbv zeta.
  destruct (compare_cases f r thresholds [Probe bp; Read bp; Read tp])
    as [[e [_ ->]] | [[Hf ->] | [[Hf [Hr ->]] | [Hf [Hr ->]]]]];
    cbn [finish fst snd]; rewrite stdout_prelude_app.
  - left. exists e. now split.
  - right. left. now repeat split.
  - right. right. left. now repeat split.
  - right. right. right. now repeat split.
Qed.

(** ** What an exit status tells *)

(** X5.  The script chooses no exit status other than 0, 1 and 2. *)
Theorem exit_status_is_0_1_or_2 (fs : filesystem) (argv : list string) (code : Z) :
  ended fs argv = Exit code -> code = 0 \/ code = 1 \/ code = 2.
Proof.
  intros Hend.
  destruct (run_outcomes fs argv)
    as [[_ [_ H]] | [[bp [_ H]] | [[e [_ H]] | [[_ H] | [[_ H] | Hcmp]]]]];
    try (rewrite H in Hend; injection Hend as <-; auto; fail);
    try (rewrite H in Hend; discriminate).
  destruct Hcmp as [report [thresholds [f [r [_ [_ Hcmp]]]]]]. cbv zeta in Hcmp.
  destruct Hcmp as [[e [_ H]] | [[_ [_ H]] | [[_ [_ [_ H]]] | [_ [_ [_ H]]]]]];
    rewrite H in Hend; try discriminate; injection Hend as <-; auto.
Qed.

(** X6.  Status 0 is a pass and nothing else: the script ends with it only
    when it was given two paths whose files parse, the report has entries
    that define both values, neither value is above its threshold, and the
    last line it printed is "Performance gate passed". *)
Theorem exit_0_only_when_within_thresholds (fs : filesystem) (argv : list string) :
  ended fs argv = Exit 0 ->
  exists report thresholds frame_p95 recompose_p95,
    given fs argv report thresholds /\
    measures report (Some frame_p95) (Some recompose_p95) /\
    exceeds frame_p95 thresholds "frameDurationCpuMsP95" = ok false /\
    exceeds recompose_p95 thresholds "recompositionCountP95" = ok false /\
    printed fs argv =
      values_lines frame_p95 recompose_p95 ++ [[Text "Performance gate passed"]].
Proof.
  intros Hend.
  destruct (run_outcomes fs argv)
    as [[_ [_ H]] | [[bp [_ H]] | [[e [_ H]] | [[_ H] | [[_ H] | Hcmp]]]]];
    try (rewrite H in Hend; discriminate).
  destruct Hcmp as [report [thresholds [f [r [Hgiven [Hmeasures Hcmp]]]]]].
  cbv zeta in Hcmp.
  destruct Hcmp as [[e [_ H]] | [[_ [_ H]] | [[_ [_ [_ H]]] | [Hf [Hr [Hout _]]]]]];
    try (rewrite H in Hend; discriminate).
  exists report, thresholds, f, r. now repeat split.
Qed.


(** X8.  Status 2 comes with exactly one line and no value: the usage line,
    the report that was not found, the report without entries, or the
    missing metrics. *)
Theorem exit_2_prints_one_reason (fs : filesystem) (argv : list string) :
  ended fs argv = Exit 2 ->
  printed fs argv = [usage] \/
  (exists benchmark_path, printed fs argv = [not_found benchmark_path]) \/
  printed fs argv = [no_entries] \/
  printed fs argv = [missing_metrics].
Proof.
  intros Hend.
  destruct (run_outcomes fs argv)
    as [[_ [H _]] | [[bp [H _]] | [[e [_ H]] | [[H _] | [[H _] | Hcmp]]]]]; auto.
  - right. left. now exists bp.
  - rewrite H in Hend. discriminate.
  - destruct Hcmp as [report [thresholds [f [r [_ [_ Hcmp]]]]]]. cbv zeta in Hcmp.
    destruct Hcmp as [[e [_ H]] | [[_ [_ H]] | [[_ [_ [_ H]]] | [_ [_ [_ H]]]]]];
      rewrite H in Hend; discriminate.
Qed.

(** X9.  A run that ends by an uncaught exception has printed no verdict:
    nothing at all, or the two value lines when the exception comes from a
    comparison. *)
Theorem traceback_prints_no_verdict (fs : filesystem) (argv : list string) (e : exn) :
  ended fs argv = Traceback e ->
  printed fs argv = [] \/
  exists frame_p95 recompose_p95, printed fs argv = values_lines frame_p95 recompose_p95.
Proof.
  intros Hend.
  destruct (run_outcomes fs argv)
    as [[_ [_ H]] | [[bp [_ H]] | [[e' [H _]] | [[_ H] | [[_ H] | Hcmp]]]]];
    try (rewrite H in Hend; discriminate); auto.
  destruct Hcmp as [report [thresholds [f [r [_ [_ Hcmp]]]]]]. cbv zeta in Hcmp.
  destruct Hcmp as [[e' [H _]] | [[_ [_ H]] | [[_ [_ [_ H]]] | [_ [_ [_ H]]]]]];
    try (rewrite H in Hend; discriminate).
  right. now exists f, r.
Qed.

(** ** Inputs of the wrong shape *)

Lemma given_run (fs : filesystem) (argv : list string) (report thresholds : json) :
  given fs argv report thresholds ->
  exists tr, stdout tr = [] /\ run fs argv = finish (check report thresholds tr).
Proof.
  intros [name [bp [tp [-> [Hb Ht]]]]].
  exists [Probe bp; Read bp; Read tp]. split; [reflexivity|].
  now apply run_given.
Qed.

(** X10.  A report that is not a mapping (a list, a string, a number,
    [null]) ends the script at line 20 by an uncaught [AttributeError], with
    nothing printed. *)
Theorem report_must_be_a_mapping
        (fs : filesystem) (argv : list string) (report thresholds : json) :
  given fs argv report thresholds ->
  is_dict report = false ->
  printed fs argv = [] /\ ended fs argv = Traceback AttributeError.
Proof.
  intros Hgiven Hshape. destruct (given_run _ _ _ _ Hgiven) as [tr [Hquiet Hrun]].
  unfold printed, ended. rewrite Hrun. unfold check, sbind, eval.
  destruct report; try discriminate; now split.
Qed.

(** X11.  Line 21 tests the truth of [benchmarks], not its length: [null],
    [false], [0], [0.0], the empty string and the empty mapping are taken
    for a report without entries, like the empty list. *)
Theorem falsy_benchmarks_is_no_entries
        (fs : filesystem) (argv : list string) (report thresholds benchmarks : json) :
  given fs argv report thresholds ->
  py_get report "benchmarks" (JList []) = ok benchmarks ->
  truthy benchmarks = false ->
  printed fs argv = [no_entries] /\ ended fs argv = Exit 2.
Proof.
  intros Hgiven Hget Hfalsy. destruct (given_run _ _ _ _ Hgiven) as [tr [Hquiet Hrun]].
  unfold printed, ended. rewrite Hrun. unfold check, sbind, eval.
  rewrite Hget. cbv beta iota delta [ok]. rewrite Hfalsy.
  cbn [negb print emit sys_exit finish fst snd]. rewrite stdout_app, Hquiet. now split.
Qed.

(** X12.  A [benchmarks] that is true but is not a list ends the script by
    an uncaught exception with nothing printed: [TypeError] at line 28 for
    a number or [true], which cannot be iterated; [AttributeError] at line
    29 for a string or a mapping, whose items are strings. *)
Theorem benchmarks_must_be_a_list
        (fs : filesystem) (argv : list string) (report thresholds benchmarks : json) :
  given fs argv report thresholds ->
  py_get report "benchmarks" (JList []) = ok benchmarks ->
  truthy benchmarks = true ->
  (forall entries, benchmarks <> JList entries) ->
  printed fs argv = [] /\
  ended fs argv =
    Traceback match benchmarks with
              | JStr _ | JDict _ => AttributeError
              | _ => TypeError
              end.
Proof.
  intros Hgiven Hget Htruthy Hshape.
  destruct (given_run _ _ _ _ Hgiven) as [tr [Hquiet Hrun]].
  unfold printed, ended. rewrite Hrun. unfold check, sbind, eval.
  rewrite Hget. cbv beta iota delta [ok]. rewrite Htruthy. cbn [negb].
  destruct benchmarks as [ | b | z | f | s | l | d]; cbn [py_iter rbind throw];
    try (now split).
  - destruct s as [ | c s]; [discriminate|]. now split.
  - now destruct (Hshape l).
  - destruct d as [ | [k v] d]; [discriminate|]. now split.
Qed.

(** X13.  An entry that is not well shaped is not skipped: with one in the
    list the script ends by an uncaught exception and prints nothing,
    whatever the other entries and the thresholds are. *)
Theorem ill_shaped_entry_is_uncaught
        (fs : filesystem) (argv : list string) (report thresholds : json)
        (entries : list json) :
  given fs argv report thresholds ->
  py_get report "benchmarks" (JList []) = ok (JList entries) ->
  ~ Forall well_shaped entries ->
  printed fs argv = [] /\ exists e, ended fs argv = Traceback e.
Proof.
  intros Hgiven Hget Hshape.
  destruct (given_run _ _ _ _ Hgiven) as [tr [Hquiet Hrun]].
  unfold printed, ended. rewrite Hrun. unfold check, sbind, eval.
  rewrite Hget. cbv beta iota delta [ok].
  destruct entries as [ | entry rest]; [now destruct Hshape|].
  cbn [truthy List.length Nat.eqb negb py_iter]. cbv beta iota delta [rbind ok].
  destruct (scan (entry :: rest)) as [e | [f r]] eqn:Hscan.
  - split; [exact Hquiet | now exists e].
  - destruct Hshape. now apply (scan_ok_well_shaped _ f r).
Qed.

(** ** Thresholds of the wrong shape *)

(** X14.  A threshold that is missing is found out only when it is needed:
    with both values defined, thresholds without [frameDurationCpuMsP95]
    end the script by an uncaught [KeyError] after the two value lines; so
    do thresholds without [recompositionCountP95], once the frame value is
    not above its threshold. *)
Theorem missing_threshold_is_key_error
        (fs : filesystem) (argv : list string) (report : json) (thresholds : dict)
        (frame_p95 recompose_p95 : num) :
  given fs argv report (JDict thresholds) ->
  measures report (Some frame_p95) (Some recompose_p95) ->
  (dict_get "frameDurationCpuMsP95" thresholds = None ->
   printed fs argv = values_lines frame_p95 recompose_p95 /\
   ended fs argv = Traceback KeyError) /\
  (exceeds frame_p95 (JDict thresholds) "frameDurationCpuMsP95" = ok false ->
   dict_get "recompositionCountP95" thresholds = None ->
   printed fs argv = values_lines frame_p95 recompose_p95 /\
   ended fs argv = Traceback KeyError).
Proof.
  intros Hgiven Hmeasures.
  destruct (run_compare _ _ _ _ _ _ Hgiven Hmeasures) as [tr [Hquiet Hrun]].
  unfold printed, ended. rewrite Hrun. split.
  - intros Hmiss.
    rewrite (compare_thresholds_frame_raises _ _ _ _ KeyError).
    + cbn [finish fst snd]. rewrite stdout_app, Hquiet, stdout_prints. now split.
    + unfold exceeds. cbn [py_getitem]. now rewrite Hmiss.
  - intros Hf Hmiss.
    rewrite (compare_thresholds_recompose_raises _ _ _ _ KeyError Hf).
    + cbn [finish fst snd]. rewrite stdout_app, Hquiet, stdout_prints. now split.
    + unfold exceeds. cbn [py_getitem]. now rewrite Hmiss.
Qed.

(** X15.  Thresholds that are not a mapping, or whose
    [frameDurationCpuMsP95] is not a number (a string, [null], a list, a
    mapping), end the script by an uncaught [TypeError] after the two value
    lines. *)
Theorem non_numeric_threshold_is_type_error
        (fs : filesystem) (argv : list string) (report thresholds : json)
        (frame_p95 recompose_p95 : num) :
  given fs argv report thresholds ->
  measures report (Some frame_p95) (Some recompose_p95) ->
  is_dict thresholds = false \/
  (exists limit, py_getitem thresholds "frameDurationCpuMsP95" = ok limit /\
                 as_num limit = throw TypeError) ->
  printed fs argv = values_lines frame_p95 recompose_p95 /\
  ended fs argv = Traceback TypeError.
Proof.
  intros Hgiven Hmeasures Hbad.
  destruct (run_compare _ _ _ _ _ _ Hgiven Hmeasures) as [tr [Hquiet Hrun]].
  unfold printed, ended. rewrite Hrun.
  rewrite (compare_thresholds_frame_raises _ _ _ _ TypeError).
  - cbn [finish fst snd]. rewrite stdout_app, Hquiet, stdout_prints. now split.
  - unfold exceeds, py_gt. destruct Hbad as [Hshape | [limit [Hget Hnum]]].
    + destruct thresholds; try discriminate; reflexivity.
    + rewrite Hget. cbv beta iota delta [rbind ok]. now rewrite Hnum.
Qed.

(** ** More entries *)

Lemma settled_grows (a a' : option num) (xs ys : list float) (n : num) :
  settled a xs -> settled a' (xs ++ ys) -> a = Some n ->
  exists n', a' = Some n' /\ num_gt n n' = false.
Proof.
  intros [Hmax _] [Hmax' _] ->. destruct Hmax as [Hne [Hin _]].
  destruct a' as [n' | ].
  - exists n'. split; [reflexivity|]. destruct Hmax' as [_ [_ Hub]].
    apply Hub. destruct Hin as [Hin | Hin]; [now left|]. right.
    rewrite map_app. apply in_or_app. now left.
  - cbn [max_with_zero] in Hmax'. apply app_eq_nil in Hmax'. now destruct Hmax'.
Qed.

Lemma accumulate_grows (metrics more : list json) (a a' : option num) (n : num) :
  accumulate None metrics = ok a ->
  accumulate None (metrics ++ more) = ok a' ->
  a = Some n ->
  exists n', a' = Some n' /\ num_gt n n' = false.
Proof.
  intros Hrun Hrun'.
  destruct (accumulate_settled _ _ _ [] settled_start Hrun) as [xs [Hxs Hs]].
  destruct (accumulate_settled _ _ _ [] settled_start Hrun') as [zs [Hzs Hs']].
  apply Forall2_app_inv_l in Hzs. destruct Hzs as [xs' [ys [Hxs' [_ ->]]]].
  rewrite (samples_functional _ _ _ Hxs' Hxs) in Hs'.
  now apply (settled_grows a a' xs ys).
Qed.

(** X16.  More entries can only raise the two values: a value defined after
    some entries is still defined after further ones, and is not above the
    new one. *)
Theorem scan_grows
        (entries more : list json) (frame_p95 recompose_p95 frame_p95' recompose_p95' : option num) :
  scan entries = ok (frame_p95, recompose_p95) ->
  scan (entries ++ more) = ok (frame_p95', recompose_p95') ->
  (forall n, frame_p95 = Some n ->
             exists n', frame_p95' = Some n' /\ num_gt n n' = false) /\
  (forall n, recompose_p95 = Some n ->
             exists n', recompose_p95' = Some n' /\ num_gt n n' = false).
Proof.
  intros Hscan Hscan'.
  apply scan_from_accumulate in Hscan. destruct Hscan as [Hf Hr].
  apply scan_from_accumulate in Hscan'. destruct Hscan' as [Hf' Hr'].
  unfold frame_metrics in Hf'. unfold recompose_metrics in Hr'.
  rewrite flat_map_app in Hf', Hr'.
  split; intros n Hn.
  - now apply (accumulate_grows _ _ _ _ n Hf Hf').
  - now apply (accumulate_grows _ _ _ _ n Hr Hr').
Qed.

End Script.

(** * The statements at sample inputs *)

Lemma sample_given (report thresholds : json) :
  given (disk (Regular (Wellformed report)) (Regular (Wellformed thresholds)))
        sample_argv report thresholds.
Proof.
  exists prog, report_json, thresholds_json. repeat split; reflexivity.
Defined.

Lemma sample_measures :
  measures rejects_strings sample_report (Some (NFloat f_ten)) (Some (NFloat f_five)).
Proof.
  exists (JList sample_entries), sample_entries. repeat split; reflexivity.
Defined.

(** ** The derived values *)

Lemma frame_p95_max_with_zero_witness :
  exists xs,
    samples rejects_strings (frame_metrics sample_entries) xs /\
    max_with_zero (Some (NFloat f_ten)) xs /\
    (Exists (fun x => at_least_zero x = true) xs ->
     true_maximum (Some (NFloat f_ten)) xs).
Proof.
  exact (frame_p95_max_with_zero rejects_strings sample_entries
           (Some (NFloat f_ten)) (Some (NFloat f_five)) eq_refl).
Defined.

(** C1 as worded fails on a frame metric whose P95 is -1: the script's
    [frame_p95] is the int 0, which is not the maximum of the P95 fields. *)
Lemma frame_p95_negative_counterexample :
  scan rejects_strings negative_frame_entries = ok (Some (NInt 0), None) /\
  samples rejects_strings (frame_metrics negative_frame_entries) [f_minus_one] /\
  ~ true_maximum (Some (NInt 0)) [f_minus_one].
Proof.
  split; [reflexivity|]. split.
  - repeat constructor.
  - intros [y [[Hin _] Heq]]. destruct Hin as [<- | []]. discriminate Heq.
Qed.

(** A frame metric without a P95 field still defines [frame_p95]: the
    default 0 is its sample. *)
Lemma frame_p95_default_sample :
  scan rejects_strings bare_frame_entries = ok (Some (NInt 0), None) /\
  samples rejects_strings (frame_metrics bare_frame_entries) [f_zero].
Proof. split; [reflexivity | repeat constructor]. Qed.

Lemma recompose_p95_max_with_zero_witness :
  (exists xs,
      samples rejects_strings (recompose_metrics sample_entries) xs /\
      max_with_zero (Some (NFloat f_five)) xs /\
      (Exists (fun x => at_least_zero x = true) xs ->
       true_maximum (Some (NFloat f_five)) xs)) /\
  scan rejects_strings [entry_with "compose:recompose:Home" (JInt 3);
                        entry_with "compose:recompose:Detail" (JInt 7)] =
    ok (None, Some (NFloat f_seven)) /\
  scan rejects_strings [entry_with "compose:recompose:Home" (JInt 7);
                        entry_with "compose:recompose:Detail" (JInt 3)] =
    ok (None, Some (NFloat f_seven)).
Proof.
  split.
  - exact (proj1 (recompose_p95_max_with_zero rejects_strings) sample_entries
             (Some (NFloat f_ten)) (Some (NFloat f_five)) eq_refl).
  - exact (proj2 (recompose_p95_max_with_zero rejects_strings)
             "compose:recompose:Home" "compose:recompose:Detail" eq_refl eq_refl).
Defined.

(** C3 as worded fails on a recomposition metric whose P95 is -1: the
    script's [recompose_p95] is the int 0. *)
Lemma recompose_p95_negative_counterexample :
  scan rejects_strings negative_recompose_entries = ok (None, Some (NInt 0)) /\
  samples rejects_strings (recompose_metrics negative_recompose_entries) [f_minus_one] /\
  ~ true_maximum (Some (NInt 0)) [f_minus_one].
Proof.
  split; [reflexivity|]. split.
  - repeat constructor.
  - intros [y [[Hin _] Heq]]. destruct Hin as [<- | []]. discriminate Heq.
Qed.

(** ** The guards *)

Lemma wrong_argument_count_is_usage_error_witness :
  let fs := disk Directory Directory in
  run rejects_strings fs [prog] = ([Print usage], Exit 2) /\
  run rejects_strings fs [prog; report_json] = ([Print usage], Exit 2) /\
  run rejects_strings fs [prog; report_json; thresholds_json; "extra"] =
    ([Print usage], Exit 2).
Proof.
  intros fs. split; [|split].
  - apply (wrong_argument_count_is_usage_error rejects_strings fs [prog]).
    discriminate.
  - apply (wrong_argument_count_is_usage_error rejects_strings fs [prog; report_json]).
    discriminate.
  - apply (wrong_argument_count_is_usage_error rejects_strings fs
             [prog; report_json; thresholds_json; "extra"]).
    discriminate.
Defined.

Lemma malformed_input_is_uncaught_witness :
  (let fs := disk (Regular Malformed) (Regular (Wellformed JNull)) in
   printed rejects_strings fs sample_argv = [] /\
   ended rejects_strings fs sample_argv = Traceback JSONDecodeError) /\
  (let fs := disk (Regular (Wellformed sample_report)) (Regular Malformed) in
   printed rejects_strings fs sample_argv = [] /\
   ended rejects_strings fs sample_argv = Traceback JSONDecodeError).
Proof.
  split; intros fs.
  - apply (malformed_input_is_uncaught rejects_strings fs prog report_json thresholds_json).
    left. reflexivity.
  - apply (malformed_input_is_uncaught rejects_strings fs prog report_json thresholds_json).
    right. split; [now exists sample_report | reflexivity].
Defined.

Lemma missing_thresholds_file_is_uncaught_witness :
  run rejects_strings (disk (Regular (Wellformed sample_report)) Absent) sample_argv =
  ([Probe report_json; Read report_json; Read thresholds_json],
   Traceback FileNotFoundError).
Proof.
  apply (missing_thresholds_file_is_uncaught rejects_strings
           (disk (Regular (Wellformed sample_report)) Absent)
           prog report_json thresholds_json sample_report); reflexivity.
Defined.

Lemma empty_report_is_data_error_witness :
  let fs := disk (Regular (Wellformed (report_of []))) (Regular (Wellformed JNull)) in
  printed rejects_strings fs sample_argv = [[Text "No benchmark entries found"]] /\
  ended rejects_strings fs sample_argv = Exit 2.
Proof.
  intros fs.
  apply (empty_report_is_data_error rejects_strings fs sample_argv (report_of []) JNull);
    [apply sample_given | reflexivity].
Defined.

Lemma missing_metrics_is_data_error_witness :
  let fs := disk (Regular (Wellformed (report_of negative_frame_entries)))
                 (Regular (Wellformed JNull)) in
  printed rejects_strings fs sample_argv =
    [[Text "Missing required metrics (frameDurationCpuMs or compose:recompose)"]] /\
  ended rejects_strings fs sample_argv = Exit 2.
Proof.
  intros fs.
  apply (missing_metrics_is_data_error rejects_strings fs sample_argv
           (report_of negative_frame_entries) JNull (Some (NInt 0)) None).
  - apply sample_given.
  - exists (JList negative_frame_entries), negative_frame_entries.
    repeat split; reflexivity.
  - now right.
Defined.

(** ** The comparisons *)

Lemma frame_check_precedes_recomposition_check_witness :
  (let fs := disk (Regular (Wellformed sample_report))
                  (Regular (Wellformed (thresholds_of (JInt 5) (JInt 1)))) in
   printed rejects_strings fs sample_argv =
     [[Text "frameDurationCpuMs P95 = "; OfNum (NFloat f_ten)];
      [Text "recomposition P95 = "; OfNum (NFloat f_five)];
      [Text "Frame-time regression detected"]] /\
   ended rejects_strings fs sample_argv = Exit 1) /\
  (let fs := disk (Regular (Wellformed sample_report))
                  (Regular (Wellformed (thresholds_of (JInt 20) (JInt 1)))) in
   printed rejects_strings fs sample_argv =
     [[Text "frameDurationCpuMs P95 = "; OfNum (NFloat f_ten)];
      [Text "recomposition P95 = "; OfNum (NFloat f_five)];
      [Text "Recomposition-count regression detected"]] /\
   ended rejects_strings fs sample_argv = Exit 1).
Proof.
  split; intros fs.
  - apply (proj1 (frame_check_precedes_recomposition_check rejects_strings fs sample_argv
                    sample_report (thresholds_of (JInt 5) (JInt 1))
                    (NFloat f_ten) (NFloat f_five)
                    (sample_given _ _) sample_measures)).
    reflexivity.
  - apply (proj2 (frame_check_precedes_recomposition_check rejects_strings fs sample_argv
                    sample_report (thresholds_of (JInt 20) (JInt 1))
                    (NFloat f_ten) (NFloat f_five)
                    (sample_given _ _) sample_measures)); reflexivity.
Defined.

Lemma within_thresholds_passes_witness :
  let fs := disk (Regular (Wellformed sample_report))
                 (Regular (Wellformed (thresholds_of (JInt 20) (JInt 20)))) in
  printed rejects_strings fs sample_argv =
    [[Text "frameDurationCpuMs P95 = "; OfNum (NFloat f_ten)];
     [Text "recomposition P95 = "; OfNum (NFloat f_five)];
     [Text "Performance gate passed"]] /\
  ended rejects_strings fs sample_argv = Exit 0.
Proof.
  intros fs.
  apply (within_thresholds_passes rejects_strings fs sample_argv
           sample_report (thresholds_of (JInt 20) (JInt 20))
           (NFloat f_ten) (NFloat f_five)
           (sample_given _ _) sample_measures); reflexivity.
Defined.

Lemma equal_to_thresholds_passes_witness :
  let fs := disk (Regular (Wellformed sample_report))
                 (Regular (Wellformed (thresholds_of (JInt 10) (JFloat f_five)))) in
  printed rejects_strings fs sample_argv =
    [[Text "frameDurationCpuMs P95 = "; OfNum (NFloat f_ten)];
     [Text "recomposition P95 = "; OfNum (NFloat f_five)];
     [Text "Performance gate passed"]] /\
  ended rejects_strings fs sample_argv = Exit 0.
Proof.
  intros fs.
  apply (equal_to_thresholds_passes rejects_strings fs sample_argv
           sample_report (thresholds_of (JInt 10) (JFloat f_five))
           (NFloat f_ten) (NFloat f_five)
           (sample_given _ _) sample_measures).
  - exists (JInt 10), (NInt 10). repeat split; reflexivity.
  - exists (JFloat f_five), (NFloat f_five). repeat split; reflexivity.
Defined.

(** ** More of the script's behaviour *)

Lemma derived_values_floor_or_positive_witness :
  (forall n, Some (NFloat f_ten) = Some n -> floor_or_positive n) /\
  (forall n, Some (NFloat f_five) = Some n -> floor_or_positive n).
Proof.
  exact (derived_values_floor_or_positive rejects_strings sample_entries
           (Some (NFloat f_ten)) (Some (NFloat f_five)) eq_refl).
Defined.

Lemma scan_order_irrelevant_witness :
  scan rejects_strings (later_entries ++ sample_entries) =
  ok (Some (NFloat f_ten), Some (NFloat f_seven)).
Proof.
  apply (scan_order_irrelevant rejects_strings (sample_entries ++ later_entries)).
  - apply perm_swap.
  - reflexivity.
Defined.

Lemma scan_ignores_other_metrics_witness :
  scan rejects_strings padded_entries = ok (Some (NFloat f_ten), Some (NFloat f_five)).
Proof.
  apply (scan_ignores_other_metrics rejects_strings sample_entries padded_entries).
  - repeat constructor. eexists. reflexivity.
  - reflexivity.
  - reflexivity.
  - reflexivity.
Defined.

Lemma scan_grows_witness :
  (forall n, Some (NFloat f_ten) = Some n ->
             exists n', Some (NFloat f_ten) = Some n' /\ num_gt n n' = false) /\
  (forall n, Some (NFloat f_five) = Some n ->
             exists n', Some (NFloat f_seven) = Some n' /\ num_gt n n' = false).
Proof.
  exact (scan_grows rejects_strings sample_entries later_entries
           (Some (NFloat f_ten)) (Some (NFloat f_five))
           (Some (NFloat f_ten)) (Some (NFloat f_seven)) eq_refl eq_refl).
Defined.

Lemma exit_status_is_0_1_or_2_witness :
  (0 = 0 \/ 0 = 1 \/ 0 = 2) /\ (1 = 0 \/ 1 = 1 \/ 1 = 2) /\ (2 = 0 \/ 2 = 1 \/ 2 = 2).
Proof.
  split; [|split].
  - exact (exit_status_is_0_1_or_2 rejects_strings pass_disk sample_argv 0 eq_refl).
  - exact (exit_status_is_0_1_or_2 rejects_strings regression_disk sample_argv 1 eq_refl).
  - exact (exit_status_is_0_1_or_2 rejects_strings pass_disk [prog] 2 eq_refl).
Defined.

Lemma exit_0_only_when_within_thresholds_witness :
  exists report thresholds frame_p95 recompose_p95,
    given pass_disk sample_argv report thresholds /\
    measures rejects_strings report (Some frame_p95) (Some recompose_p95) /\
    exceeds frame_p95 thresholds "frameDurationCpuMsP95" = ok false /\
    exceeds recompose_p95 thresholds "recompositionCountP95" = ok false /\
    printed rejects_strings pass_disk sample_argv =
      values_lines frame_p95 recompose_p95 ++ [[Text "Performance gate passed"]].
Proof.
  exact (exit_0_only_when_within_thresholds rejects_strings pass_disk sample_argv eq_refl).
Defined.


Lemma exit_2_prints_one_reason_witness :
  let fs := disk (Regular (Wellformed (report_of []))) (Regular (Wellformed JNull)) in
  printed rejects_strings fs sample_argv = [usage] \/
  (exists benchmark_path,
      printed rejects_strings fs sample_argv = [not_found benchmark_path]) \/
  printed rejects_strings fs sample_argv = [no_entries] \/
  printed rejects_strings fs sample_argv = [missing_metrics].
Proof.
  intros fs.
  exact (exit_2_prints_one_reason rejects_strings fs sample_argv eq_refl).
Defined.

Lemma traceback_prints_no_verdict_witness :
  let fs := disk (Regular (Wellformed sample_report)) (Regular (Wellformed (JDict []))) in
  printed rejects_strings fs sample_argv = [] \/
  exists frame_p95 recompose_p95,
    printed rejects_strings fs sample_argv = values_lines frame_p95 recompose_p95.
Proof.
  intros fs.
  exact (traceback_prints_no_verdict rejects_strings fs sample_argv KeyError eq_refl).
Defined.

Lemma missing_report_is_data_error_witness :
  run rejects_strings (disk Absent Absent) sample_argv =
  ([Probe report_json;
    Print [Text "Benchmark report not found: "; OfPath report_json]],
   Exit 2).
Proof.
  apply (missing_report_is_data_error rejects_strings (disk Absent Absent)
           prog report_json thresholds_json).
  reflexivity.
Defined.

Lemma report_must_be_a_mapping_witness :
  let fs := disk (Regular (Wellformed (JList sample_entries)))
                 (Regular (Wellformed (thresholds_of (JInt 20) (JInt 20)))) in
  printed rejects_strings fs sample_argv = [] /\
  ended rejects_strings fs sample_argv = Traceback AttributeError.
Proof.
  intros fs.
  apply (report_must_be_a_mapping rejects_strings fs sample_argv
           (JList sample_entries) (thresholds_of (JInt 20) (JInt 20)));
    [apply sample_given | reflexivity].
Defined.

Lemma falsy_benchmarks_is_no_entries_witness :
  let fs := disk (Regular (Wellformed (JDict [("benchmarks", JNull)])))
                 (Regular (Wellformed JNull)) in
  printed rejects_strings fs sample_argv = [no_entries] /\
  ended rejects_strings fs sample_argv = Exit 2.
Proof.
  intros fs.
  apply (falsy_benchmarks_is_no_entries rejects_strings fs sample_argv
           (JDict [("benchmarks", JNull)]) JNull JNull);
    [apply sample_given | reflexivity | reflexivity].
Defined.

Lemma benchmarks_must_be_a_list_witness :
  (let fs := disk (Regular (Wellformed (JDict [("benchmarks", JInt 3)])))
                  (Regular (Wellformed JNull)) in
   printed rejects_strings fs sample_argv = [] /\
   ended rejects_strings fs sample_argv = Traceback TypeError) /\
  (let fs := disk (Regular (Wellformed (JDict [("benchmarks", JStr "none")])))
                  (Regular (Wellformed JNull)) in
   printed rejects_strings fs sample_argv = [] /\
   ended rejects_strings fs sample_argv = Traceback AttributeError).
Proof.
  split; intros fs.
  - apply (benchmarks_must_be_a_list rejects_strings fs sample_argv
             (JDict [("benchmarks", JInt 3)]) JNull (JInt 3));
      [apply sample_given | reflexivity | reflexivity | discriminate].
  - apply (benchmarks_must_be_a_list rejects_strings fs sample_argv
             (JDict [("benchmarks", JStr "none")]) JNull (JStr "none"));
      [apply sample_given | reflexivity | reflexivity | discriminate].
Defined.

Lemma ill_shaped_entry_is_uncaught_witness :
  let entries := sample_entries ++ [JDict [("metrics", JNull)]] in
  let fs := disk (Regular (Wellformed (report_of entries)))
                 (Regular (Wellformed (thresholds_of (JInt 20) (JInt 20)))) in
  printed rejects_strings fs sample_argv = [] /\
  exists e, ended rejects_strings fs sample_argv = Traceback e.
Proof.
  intros entries fs.
  apply (ill_shaped_entry_is_uncaught rejects_strings fs sample_argv
           (report_of entries) (thresholds_of (JInt 20) (JInt 20)) entries);
    [apply sample_given | reflexivity |].
  intros Hall. apply Forall_app in Hall. destruct Hall as [_ Hbad].
  inversion Hbad as [ | ? ? [[d Hd] _] _]. discriminate Hd.
Defined.

Lemma missing_threshold_is_key_error_witness :
  (let fs := disk (Regular (Wellformed sample_report)) (Regular (Wellformed (JDict []))) in
   printed rejects_strings fs sample_argv = values_lines (NFloat f_ten) (NFloat f_five) /\
   ended rejects_strings fs sample_argv = Traceback KeyError) /\
  (let fs := disk (Regular (Wellformed sample_report))
                  (Regular (Wellformed (JDict [("frameDurationCpuMsP95", JInt 20)]))) in
   printed rejects_strings fs sample_argv = values_lines (NFloat f_ten) (NFloat f_five) /\
   ended rejects_strings fs sample_argv = Traceback KeyError).
Proof.
  split; intros fs.
  - apply (proj1 (missing_threshold_is_key_error rejects_strings fs sample_argv
                    sample_report [] (NFloat f_ten) (NFloat f_five)
                    (sample_given _ _) sample_measures)).
    reflexivity.
  - apply (proj2 (missing_threshold_is_key_error rejects_strings fs sample_argv
                    sample_report [("frameDurationCpuMsP95", JInt 20)]
                    (NFloat f_ten) (NFloat f_five)
                    (sample_given _ _) sample_measures)); reflexivity.
Defined.

Lemma non_numeric_threshold_is_type_error_witness :
  (let fs := disk (Regular (Wellformed sample_report)) (Regular (Wellformed (JList []))) in
   printed rejects_strings fs sample_argv = values_lines (NFloat f_ten) (NFloat f_five) /\
   ended rejects_strings fs sample_argv = Traceback TypeError) /\
  (let fs := disk (Regular (Wellformed sample_report))
                  (Regular (Wellformed (thresholds_of (JStr "20") (JInt 20)))) in
   printed rejects_strings fs sample_argv = values_lines (NFloat f_ten) (NFloat f_five) /\
   ended rejects_strings fs sample_argv = Traceback TypeError).
Proof.
  split; intros fs.
  - apply (non_numeric_threshold_is_type_error rejects_strings fs sample_argv
             sample_report (JList []) (NFloat f_ten) (NFloat f_five)
             (sample_given _ _) sample_measures).
    left. reflexivity.
  - apply (non_numeric_threshold_is_type_error rejects_strings fs sample_argv
             sample_report (thresholds_of (JStr "20") (JInt 20))
             (NFloat f_ten) (NFloat f_five)
             (sample_given _ _) sample_measures).
    right. exists (JStr "20"). split; reflexivity.
Defined.
